(** * incommon_request.py: the certificate request orchestrator

    A shallow embedding of [osgpkitools/incommon_request.py]: the parsing of
    host tuples, [submit_request], [retrieve_cert] and the batch part of
    [main] (everything after argument parsing and the connection test).

    Effects are modelled with a small writer/exception monad: a computation
    yields the list of externally visible events it performed (connections,
    queries, sleeps, file writes, summary lines) and either a value or the
    Python exception it raised.  The remote service is a pair of oracles:
    the enrollment endpoint's answer to a payload, and the collect
    endpoint's answer to the [i]-th query for a tracking id. *)

From Stdlib Require Import String Ascii List ZArith Bool Lia.
Import ListNotations.
Open Scope string_scope.
Set Warnings "-register-all".

(** ** Python values that cross the wire *)

(** A value decoded by [json.loads]. *)
Inductive jval : Type :=
| JNull
| JBool (b : bool)
| JNum (z : Z)
| JStr (s : string)
| JList (l : list jval)
| JDict (d : list (string * jval)).

(** Python truthiness of a decoded value. *)
Definition truthy (v : jval) : bool :=
  match v with
  | JNull => false
  | JBool b => b
  | JNum z => negb (Z.eqb z 0)
  | JStr s => negb (String.eqb s "")
  | JList l => negb (Nat.eqb (length l) 0)
  | JDict d => negb (Nat.eqb (length d) 0)
  end.

(** Truthiness of a Python value that is [None] or a decoded value. *)
Definition truthy_opt (o : option jval) : bool :=
  match o with None => false | Some v => truthy v end.

(** The exceptions the code raises, catches or lets through. *)
Inductive exn : Type :=
| BadStatusLine                 (* httplib.BadStatusLine *)
| HTTPException (what : string) (* any other httplib.HTTPException *)
| SSLError
| SocketError
| KeyError (k : string)
| TypeError
| ValueError
| IndexError
| FileWriteException (path : string)
| ValidationError                (* utils.Csr: invalid common name (spec 4.1) *)
| CryptoError.                   (* utils.Csr: key generation failed (spec 4.1) *)

Definition is_BadStatusLine (e : exn) : bool :=
  match e with BadStatusLine => true | _ => false end.

(** The configuration section [CONFIG_TEXT], as [dict(config_parser.items(..))]
    gives it: every value is a string (ConfigParser strips the trailing
    blanks of [enrollurl]). *)
Record config : Type := {
  organization : string;
  department : string;
  customeruri : string;
  igtfservercert : string;
  igtfmultidomain : string;
  servertype : string;
  term : string;
  apiurl : string;
  listingurl : string;
  enrollurl : string;
  retrieveurl : string;
  certx509co : string;
  content_type : string
}.

Definition CONFIG : config := {|
  organization := "9697";
  department := "9732";
  customeruri := "InCommon";
  igtfservercert := "215";
  igtfmultidomain := "283";
  servertype := "-1";
  term := "395";
  apiurl := "cert-manager.com";
  listingurl := "/private/api/ssl/v1/types";
  enrollurl := "/private/api/ssl/v1/enroll";
  retrieveurl := "/private/api/ssl/v1/collect/";
  certx509co := "/x509CO";
  content_type := "application/json"
|}.

Definition MAX_RETRY_RETRIEVAL : nat := 20.
Definition WAIT_RETRIEVAL : nat := 5.
Definition WAIT_APPROVAL : nat := 30.

(** ** The CSR objects built by [utils.Csr] *)

(** Modelled from the spec: [utils.Csr] (osgpkitools/utils.py, not among the
    sources) holds the common name and the alternative names it was given,
    in the order supplied, and the output directory its key path is derived
    from (spec 4.1).  Its key pair and DER encoding are kept symbolic: a
    payload carries the CSR object itself where the code sends
    [csr.base64_csr()]. *)
Record csr : Type := Csr {
  csr_common_name : string;
  csr_certdir : string;
  altnames : list string
}.

Definition csr_eq_dec (a b : csr) : {a = b} + {a <> b}.
Proof. decide equality; apply list_eq_dec || idtac; apply string_dec. Defined.

(** The values of the enrollment payload dict. *)
Inductive pval : Type :=
| PStr (s : string)
| PInt (z : Z)
| PCsrB64 (c : csr)          (* csr.base64_csr() *)
| PTuple (l : list string).  (* the alt-names tuple *)

Definition payload := list (string * pval).
Definition headers := list (string * string).

(** Answer of the enrollment endpoint to one POST. *)
Inductive post_response : Type :=
| PostRaise (e : exn)                        (* post_request raised *)
| PostResp (status : Z) (body : option jval). (* body: None if not JSON *)

(** Answer of the collect endpoint to one GET (the exception may come from
    [get_request] or from [response.read()]). *)
Inductive attempt : Type :=
| ARaise (e : exn)
| AResp (status : Z) (body : string).

(** ** Events and the effect monad *)

(** The retrieval url [config['retrieveurl'] + str(sslId) + config['certx509co']],
    kept in its three parts. *)
Definition url := (string * jval * string)%type.

Inductive event : Type :=
| EConnect                                 (* InCommonApiClient(...) *)
| EGet (u : url) (h : headers)             (* restclient.get_request *)
| EPost (path : string) (h : headers) (p : payload) (* restclient.post_request *)
| EClose                                   (* restclient.closeConnection() *)
| ESleep (secs : nat)                      (* time.sleep *)
| EWaitMsg                                 (* 'Waiting for 5 seconds before retrying ...' *)
| ENewCsr (c : csr)                        (* utils.Csr(...) returned c *)
| EWriteKey (c : csr)                      (* 'Writing key file: ...', then the call csr.write_pkey() *)
| ESafeRename (path : string)              (* the call utils.safe_rename(path) *)
| EWriteCert (path body : string)          (* the call utils.atomic_write(path, body) *)
| ESpecified (n : nat)                     (* '%s certificates were specified' *)
| ERetrievedOk (n : nat)                   (* '%s certificates were requested and retrieved successfully' *)
| EKeyNotFound (k : string).               (* 'Key %s not found' *)

Inductive result (A : Type) : Type :=
| Ok (a : A)
| Exc (e : exn).
Arguments Ok {A} a.
Arguments Exc {A} e.

Definition M (A : Type) : Type := (list event * result A)%type.

Definition ret {A} (a : A) : M A := ([], Ok a).
Definition raise {A} (e : exn) : M A := ([], Exc e).
Definition tell (e : event) : M unit := ([e], Ok tt).

Definition bind {A B} (m : M A) (f : A -> M B) : M B :=
  match m with
  | (t, Ok a) => let '(t', r) := f a in (app t t', r)
  | (t, Exc e) => (t, Exc e)
  end.

Notation "x <- m ;; k" := (bind m (fun x => k))
  (at level 61, m at next level, right associativity).
Notation "m ;;; k" := (bind m (fun _ : unit => k))
  (at level 61, right associativity).

(** Modelled from the spec: the local operations of [osgpkitools/utils.py]
    (not among the sources) that may raise.  [utils.Csr(...)] fails with
    [ValidationError] or [CryptoError] (spec 4.1); [csr.write_pkey()],
    [utils.safe_rename] and [utils.atomic_write] fail with a
    [FileWriteException] carrying the path (spec 4.4).  Each field gives the
    exception the operation raises on the given arguments (for [utils.Csr],
    on the common name, directory and alt-names it is called with), or
    [None]. *)
Record local_io : Type := {
  csr_error : csr -> option exn;              (* utils.Csr(common_name, certdir, altnames=sans) *)
  write_pkey_error : csr -> option exn;       (* csr.write_pkey() *)
  safe_rename_error : string -> option exn;   (* utils.safe_rename(cert_path) *)
  atomic_write_error : string -> string -> option exn (* utils.atomic_write(cert_path, body) *)
}.

(** Raise what a local operation raises, if anything. *)
Definition try_io (r : option exn) : M unit :=
  match r with Some e => raise e | None => ret tt end.

(** ** Python string helpers *)

(** [str.isspace] on one byte (the file is read in ['rb'] mode). *)
Definition is_py_space (c : ascii) : bool :=
  match c with
  | " "%char | "009"%char | "010"%char | "011"%char | "012"%char | "013"%char => true
  | _ => false
  end.

Fixpoint split_go (s : string) (cur : list ascii) : list string :=
  match s with
  | EmptyString =>
      match cur with [] => [] | _ => [string_of_list_ascii (rev cur)] end
  | String c s' =>
      if is_py_space c then
        match cur with
        | [] => split_go s' []
        | _ => string_of_list_ascii (rev cur) :: split_go s' []
        end
      else split_go s' (c :: cur)
  end.

(** [s.split()]: the maximal runs of non-whitespace characters. *)
Definition py_split (s : string) : list string := split_go s [].

Fixpoint drop_spaces (l : list ascii) : list ascii :=
  match l with
  | c :: l' => if is_py_space c then drop_spaces l' else l
  | [] => []
  end.

(** [s.strip()]. *)
Definition py_strip (s : string) : string :=
  string_of_list_ascii (rev (drop_spaces (rev (drop_spaces (list_ascii_of_string s))))).

Fixpoint split_on_go (sep : ascii) (s : string) (cur : list ascii) : list string :=
  match s with
  | EmptyString => [string_of_list_ascii (rev cur)]
  | String c s' =>
      if Ascii.eqb c sep then string_of_list_ascii (rev cur) :: split_on_go sep s' []
      else split_on_go sep s' (c :: cur)
  end.

(** [s.split(sep)] for a one-character separator. *)
Definition py_split_on (sep : ascii) (s : string) : list string := split_on_go sep s [].

(** [os.path.join(a, b)] (posixpath). *)
Definition os_path_join (a b : string) : string :=
  if String.prefix "/" b then b
  else if String.eqb a "" then b
  else if String.eqb (substring (String.length a - 1) 1 a) "/" then a ++ b
  else a ++ "/" ++ b.

(** ** Host tuples *)

(** A host tuple: [(common_name,) + alt_names]. *)
Definition host := list string.

(** Where main takes its hosts from: [-H hostname] with its [-a] options, or
    the lines [hosts_file.readlines()] of [-f hostfile]. *)
Inductive host_source : Type :=
| FromHostname (hostname : string) (alt_names : list string)
| FromFile (host_lines : list string).

(** [hosts = [tuple([ARGS['hostname'].strip()] + ARGS['alt_names'])]] or
    [hosts = [tuple(line.split()) for line in host_lines if line.strip()]]. *)
Definition parse_hosts (src : host_source) : list host :=
  match src with
  | FromHostname h alts => [py_strip h :: alts]
  | FromFile lines =>
      map py_split (filter (fun l => negb (String.eqb (py_strip l) "")) lines)
  end.

(** [common_name = host[0]]; [sans = host[1:]]. *)
Definition host_sans (h : host) : list string := tl h.

(** ** build_headers *)

Section Orchestrator.

(** [ARGS['login']], the operator login. *)
Variable login : string.

Definition build_headers (cfg : config) : headers :=
  [("Content-type", content_type cfg); ("login", login);
   ("customerUri", customeruri cfg)].

(** ** retrieve_cert *)

(** The collect endpoint: its answer to the [i]-th query of one call of
    [retrieve_cert] for a tracking id. *)
Variable collect : jval -> nat -> attempt.

(** One pass of [for _ in range(retry_count)], from the attempt [i] on with
    [fuel] passes left. *)
Fixpoint retrieve_loop (cfg : config) (sslId : jval) (i fuel : nat)
  : M (option string) :=
  match fuel with
  | O => ret None
  | S fuel' =>
    let retry :=
      tell EWaitMsg ;;;
      tell EClose ;;;
      tell (ESleep WAIT_RETRIEVAL) ;;;
      retrieve_loop cfg sslId (S i) fuel' in
    tell EConnect ;;;
    tell (EGet (retrieveurl cfg, sslId, certx509co cfg) (build_headers cfg)) ;;;
    match collect sslId i with
    | AResp status text =>
        if Z.eqb status 200 then tell EClose ;;; ret (Some text)
        else retry
    | ARaise e =>
        if is_BadStatusLine e then retry else raise e
    end
  end.

Definition retrieve_cert (cfg : config) (sslId : jval) : M (option string) :=
  retrieve_loop cfg sslId 0 MAX_RETRY_RETRIEVAL.

(** ** submit_request *)

(** The enrollment endpoint: its answer to a POST of a payload. *)
Variable enroll : payload -> post_response.

(** [response_data['sslId']] on the decoded body: a dict gives the value of
    its key ([json.loads] keeps the last of duplicated keys) or raises
    [KeyError]; any other JSON value is not subscriptable by a string. *)
Definition get_sslId (v : jval) : M jval :=
  match v with
  | JDict d =>
      match find (fun kv => String.eqb (fst kv) "sslId") (rev d) with
      | Some (_, x) => ret x
      | None => raise (KeyError "sslId")
      end
  | _ => raise TypeError
  end.

(** The Python value of a decoded JSON value, with [None] for [null]:
    [response_data = response_data['sslId']] is [None] when the id is null. *)
Definition py_of_json (x : jval) : option jval :=
  match x with JNull => None | _ => Some x end.

(** The payload dict, in the order the code builds it.  [sans] is the
    alt-names tuple ([None], the default, behaves as the empty tuple). *)
Definition build_payload (cfg : config) (hostname : string) (cert_csr : csr)
  (sans : list string) : payload :=
  let cert_type := match sans with [] => igtfservercert cfg | _ => igtfmultidomain cfg end in
  app
  [("csr", PCsrB64 cert_csr);
   ("orgId", PStr (department cfg));
   ("certType", PStr cert_type);
   ("numberServers", PInt 0);
   ("serverType", PStr (servertype cfg));
   ("term", PStr (term cfg));
   ("comments", PStr ("Certificate request for " ++ hostname))]
  (match sans with [] => [] | _ => [("subjAltNames", PTuple sans)] end).

(** [submit_request]: [None] on a non-200 answer, the [sslId] value on 200
    ([None] for a null id);
    transport errors, undecodable bodies and a missing [sslId] raise. *)
Definition submit_request (cfg : config) (hostname : string) (cert_csr : csr)
  (sans : list string) : M (option jval) :=
  let payload := build_payload cfg hostname cert_csr sans in
  tell (EPost (enrollurl cfg) (build_headers cfg) payload) ;;;
  match enroll payload with
  | PostRaise e => raise e
  | PostResp status body =>
      if Z.eqb status 200 then
        match body with
        | None => raise ValueError
        | Some v => x <- get_sslId v ;; ret (py_of_json x)
        end
      else ret None
  end.

(** ** main, after argument parsing *)

(** [ARGS['certdir']]. *)
Variable certdir : string.
(** What the local operations of [utils] raise. *)
Variable io : local_io.
(** [str(csr.x509request.get_subject())]. *)
Variable subject_of : csr -> string.
(** The iteration order of [set(hosts)]: some duplicate-free enumeration of
    the distinct tuples (constrained where it is used). *)
Variable set_order : list host -> list host.

(** [for host in set(hosts): ... csrs.append(utils.Csr(common_name, certdir, altnames=sans))]. *)
Fixpoint build_csrs (hs : list host) : M (list csr) :=
  match hs with
  | [] => ret []
  | h :: hs' =>
      match h with
      | [] => raise IndexError
      | common_name :: sans =>
          let c := Csr common_name certdir sans in
          try_io (csr_error io c) ;;;
          tell (ENewCsr c) ;;;
          cs <- build_csrs hs' ;;
          ret (c :: cs)
      end
  end.

(** [for csr in csrs: ... if response_request: requests.append(...); csr.write_pkey()]. *)
Fixpoint submit_all (cs : list csr) : M (list (jval * string)) :=
  match cs with
  | [] => ret []
  | c :: cs' =>
      let subj := subject_of c in
      response_request <- submit_request CONFIG subj c (altnames c) ;;
      match response_request with
      | Some v =>
          if truthy v then
            tell (EWriteKey c) ;;;
            try_io (write_pkey_error io c) ;;;
            rest <- submit_all cs' ;;
            ret ((v, subj) :: rest)
          else submit_all cs'
      | None => submit_all cs'
      end
  end.

(** [os.path.join(ARGS['certdir'], subj.split("=")[1] + '-cert.pem')]. *)
Definition cert_path (subj : string) : M string :=
  match nth_error (py_split_on "="%char subj) 1 with
  | Some name => ret (os_path_join certdir (name ++ "-cert.pem"))
  | None => raise IndexError
  end.

(** [for request in requests: ... if response_retrieve is not None: write]. *)
Fixpoint retrieve_all (requests : list (jval * string)) : M unit :=
  match requests with
  | [] => ret tt
  | (sslId, subj) :: rest =>
      response_retrieve <- retrieve_cert CONFIG sslId ;;
      match response_retrieve with
      | Some body =>
          path <- cert_path subj ;;
          tell (ESafeRename path) ;;;
          try_io (safe_rename_error io path) ;;;
          tell (EWriteCert path body) ;;;
          try_io (atomic_write_error io path body) ;;;
          retrieve_all rest
      | None => retrieve_all rest
      end
  end.

(** The body of main's [try] block once [hosts] is built. *)
Definition main_batch (hosts : list host) : M unit :=
  csrs <- build_csrs (set_order hosts) ;;
  requests <- submit_all csrs ;;
  tell EClose ;;;
  tell (ESleep WAIT_APPROVAL) ;;;
  retrieve_all requests ;;;
  tell (ESpecified (length csrs)) ;;;
  tell (ERetrievedOk (length requests)).

(** main with its handlers: the events and the exit status. *)
Definition main_run (src : host_source) : list event * nat :=
  match main_batch (parse_hosts src) with
  | (t, Ok _) => (t, 0)
  | (t, Exc (KeyError k)) => (app t [EKeyNotFound k], 1)
  | (t, Exc _) => (t, 1)
  end.

End Orchestrator.

(** ** parse_args *)

(** The options [parser.parse_args()] returns.  [--debug] only sets the
    log level, and [-h] and [--version] exit inside optparse: neither is
    modelled. *)
Record options : Type := {
  opt_hostname : option string;      (* -H, default None *)
  opt_hostfile : option string;      (* -f, default None *)
  opt_write_directory : string;      (* -d, default '.' *)
  opt_userprivkey : option string;   (* -k, default None *)
  opt_usercert : option string;      (* -c, default None *)
  opt_alt_names : list string;       (* -a (append), default [] *)
  opt_login : option string;         (* -u; None for the default [] *)
  opt_test : bool                    (* -T *)
}.

(** Python truthiness of an option holding a string, or its falsy default. *)
Definition truthy_str (o : option string) : bool :=
  match o with Some s => negb (String.eqb s "") | None => false end.

(** Which [InsufficientArgumentException] parse_args raises. *)
Inductive missing : Type := MissingLogin | MissingHost | MissingCredentials.

(** The exceptions of the whole program: those of the batch ([exn]), those
    parse_args raises, and those raised inside [utils]. *)
Inductive main_exn : Type :=
| PyExc (e : exn)
| InsufficientArgumentException (what : missing)
| FileNotFoundException (filename : string)
| UtilsError (what : string).

(** The dict parse_args returns ([hostname] and [hostfile] are [None] when
    the key is absent; [args] and [values] are not used by main). *)
Record arguments : Type := {
  arg_hostname : option string;
  arg_hostfile : option string;
  arg_alt_names : list string;
  arg_test : bool;
  arg_login : string;
  arg_usercert : string;
  arg_userprivkey : string;
  arg_certdir : string
}.

Section ParseArgs.

(** [os.path.exists]. *)
Variable os_path_exists : string -> bool.
(** [utils.verify_user_cred(usercert, userprivkey)]. *)
Variable verify_user_cred : string -> string -> main_exn + (string * string).

Definition parse_args (o : options) : main_exn + arguments :=
  if negb (truthy_str (opt_login o)) then inl (InsufficientArgumentException MissingLogin)
  else
  (* the locals [hostname] and [hostfile] the first [if not args.test] block sets *)
  let locals : main_exn + (option string * option string) :=
    if opt_test o then inr (None, None)
    else if negb (truthy_str (opt_hostname o)) then
      match opt_hostfile o with
      | None => inl (InsufficientArgumentException MissingHost)
      | Some hostfile => inr (None, Some hostfile)
      end
    else inr (opt_hostname o, None) in
  match locals with
  | inl e => inl e
  | inr (hostname, hostfile) =>
      let not_found :=
        if opt_test o then None
        else if negb (truthy_str (opt_hostname o)) then
          match hostfile with
          | Some f => if os_path_exists f then None else Some (FileNotFoundException f)
          | None => None
          end
        else None in
      match not_found with
      | Some e => inl e
      | None =>
          if negb (truthy_str (opt_usercert o)) || negb (truthy_str (opt_userprivkey o)) then
            inl (InsufficientArgumentException MissingCredentials)
          else
            match verify_user_cred (match opt_usercert o with Some c => c | None => "" end)
                                   (match opt_userprivkey o with Some k => k | None => "" end) with
            | inl e => inl e
            | inr (usercert, userkey) =>
                inr {| arg_hostname := hostname;
                       arg_hostfile := hostfile;
                       arg_alt_names := opt_alt_names o;
                       arg_test := opt_test o;
                       arg_login := match opt_login o with Some l => l | None => "" end;
                       arg_usercert := usercert;
                       arg_userprivkey := userkey;
                       arg_certdir := opt_write_directory o |}
            end
      end
  end.

End ParseArgs.

(** ** test_incommon_connection and main *)

(** The events of the whole program: those of the batch model, the GET of
    the listing url, the report of its status, and the report a handler of
    main prints for an exception. *)
Inductive main_event : Type :=
| MEv (e : event)
| MListing (h : headers)                      (* restclient.get_request(config['listingurl'], headers) *)
| MConnectionReport (status : Z) (ok : bool)  (* 'HTTP ...' and 'Successful' / 'Failed connection ...' *)
| MHandled (e : main_exn).

Section MainProgram.

Variable os_path_exists : string -> bool.
Variable verify_user_cred : string -> string -> main_exn + (string * string).
(** [utils.check_permissions(certdir)]. *)
Variable check_permissions : string -> option main_exn.
(** [utils.get_ssl_context(usercert=..., userkey=...)]. *)
Variable get_ssl_context : string -> string -> option main_exn.
(** [open(hostfile, 'rb').readlines()]. *)
Variable read_lines : string -> main_exn + list string.
(** The answer to the GET of the listing url ([get_request] and [read]). *)
Variable listing : attempt.
Variable collect : jval -> nat -> attempt.
Variable enroll : payload -> post_response.
Variable io : local_io.
Variable subject_of : csr -> string.
Variable set_order : list host -> list host.

(** [test_incommon_connection]: the GET and [read()] sit before the [try],
    so their exceptions propagate; the [try] only wraps the report. *)
Definition test_incommon_connection (login : string) : list main_event * option main_exn :=
  let headers := build_headers login CONFIG in
  match listing with
  | ARaise e => ([MListing headers], Some (PyExc e))
  | AResp status _ => ([MListing headers; MConnectionReport status (Z.eqb status 200)], None)
  end.

(** [main]: the events and the exit status.  Every handler ends in
    [sys.exit(1)] or [sys.exit(message)] (status 1); [sys.exit(0)] of the
    test mode is re-raised by [except SystemExit]. *)
Definition main (o : options) : list main_event * nat :=
  match parse_args os_path_exists verify_user_cred o with
  | inl e => ([MHandled e], 1)
  | inr args =>
    match check_permissions (arg_certdir args) with
    | Some e => ([MHandled e], 1)
    | None =>
      match get_ssl_context (arg_usercert args) (arg_userprivkey args) with
      | Some e => ([MHandled e], 1)
      | None =>
        (* restclient = InCommonApiClient(CONFIG['apiurl'], ssl_context) *)
        if arg_test args then
          let '(t, r) := test_incommon_connection (arg_login args) in
          match r with
          | Some e => (MEv EConnect :: t ++ [MHandled e], 1)
          | None => (MEv EConnect :: t ++ [MEv EClose], 0)
          end
        else
          let src : main_exn + host_source :=
            match arg_hostname args with
            | Some hostname => inr (FromHostname hostname (arg_alt_names args))
            | None =>
                match arg_hostfile args with
                | Some hostfile =>
                    match read_lines hostfile with
                    | inl e => inl e
                    | inr host_lines => inr (FromFile host_lines)
                    end
                | None => inl (PyExc (KeyError "hostfile"))
                end
            end in
          match src with
          | inl (PyExc (KeyError k)) => ([MEv EConnect; MEv (EKeyNotFound k)], 1)
          | inl e => ([MEv EConnect; MHandled e], 1)
          | inr src =>
              let '(t, code) :=
                main_run (arg_login args) collect enroll (arg_certdir args) io subject_of
                         set_order src in
              (MEv EConnect :: map MEv t, code)
          end
      end
    end
  end.

End MainProgram.

(** ** Trace vocabulary *)

Open Scope list_scope.

(** The GET of one retrieval attempt. *)
Definition retrieve_get (login : string) (cfg : config) (sslId : jval) : event :=
  EGet (retrieveurl cfg, sslId, certx509co cfg) (build_headers login cfg).

(** The events of one attempt that ends in a retry. *)
Definition retry_block (login : string) (cfg : config) (sslId : jval) : list event :=
  [EConnect; retrieve_get login cfg sslId; EWaitMsg; EClose; ESleep WAIT_RETRIEVAL].

Definition retries (login : string) (cfg : config) (sslId : jval) (n : nat) : list event :=
  concat (repeat (retry_block login cfg sslId) n).

(** Answers after which [retrieve_cert] goes round the loop again. *)
Definition is_retry (a : attempt) : bool :=
  match a with
  | ARaise e => is_BadStatusLine e
  | AResp status _ => negb (Z.eqb status 200)
  end.

Definition is_get (e : event) : bool := match e with EGet _ _ => true | _ => false end.
Definition is_sleep (e : event) : bool := match e with ESleep _ => true | _ => false end.
Definition is_write_key (e : event) : bool := match e with EWriteKey _ => true | _ => false end.
Definition is_write_cert (e : event) : bool := match e with EWriteCert _ _ => true | _ => false end.

(** [payload[k]] (the payload is built with distinct keys). *)
Definition payload_get (k : string) (p : payload) : option pval :=
  option_map snd (find (fun kv => String.eqb (fst kv) k) p).

Definition csr_eqb (a b : csr) : bool := if csr_eq_dec a b then true else false.

(** The enrollment POST main makes for the CSR [c]. *)
Definition post_of (login : string) (subject_of : csr -> string) (c : csr) : event :=
  EPost (enrollurl CONFIG) (build_headers login CONFIG)
        (build_payload CONFIG (subject_of c) c (altnames c)).

(** The ticket main keeps for [c]: the [sslId] its submission returned, when
    it returned one that passes [if response_request:]. *)
Definition ticket_of (login : string) (enroll : payload -> post_response)
  (subject_of : csr -> string) (c : csr) : option jval :=
  match snd (submit_request login enroll CONFIG (subject_of c) c (altnames c)) with
  | Ok (Some v) => if truthy v then Some v else None
  | _ => None
  end.

Definition is_post_of (c : csr) (e : event) : bool :=
  match e with
  | EPost _ _ p =>
      match payload_get "csr" p with Some (PCsrB64 c') => csr_eqb c c' | _ => false end
  | _ => false
  end.

Definition is_newcsr_of (c : csr) (e : event) : bool :=
  match e with ENewCsr c' => csr_eqb c c' | _ => false end.

(** Events of the retrieval loop. *)
Definition retrieval_event (e : event) : bool :=
  match e with
  | EConnect | EGet _ _ | EWaitMsg | EClose | ESleep _ => true
  | _ => false
  end.

(** The CSR main builds from a (non-empty) host tuple. *)
Definition mk_csr (certdir : string) (h : host) : csr :=
  match h with
  | common_name :: sans => Csr common_name certdir sans
  | [] => Csr "" certdir []
  end.

(** What the retrieval phase does besides the retrieval loops. *)
Definition retrieval_phase_event (e : event) : Prop :=
  retrieval_event e = true \/ (exists p, e = ESafeRename p) \/ (exists p b, e = EWriteCert p b).

(** The events of the submission phase. *)
Definition submit_phase_event (e : event) : bool :=
  match e with EPost _ _ _ | EWriteKey _ => true | _ => false end.

(** A word of a host-file line: non-empty, without whitespace. *)
Definition is_word (w : string) : bool :=
  negb (String.eqb w "") && forallb (fun c => negb (is_py_space c)) (list_ascii_of_string w).

(** Only whitespace, possibly nothing. *)
Definition is_blank (s : string) : bool := forallb is_py_space (list_ascii_of_string s).

(** A host-file line laid out around its words: leading whitespace [lead],
    the first word [cn], each further word with the whitespace before it,
    and trailing whitespace [trail] (the ['\n'] [readlines] keeps). *)
Fixpoint words_tail (rest : list (string * string)) (trail : string) : string :=
  match rest with
  | [] => trail
  | (sep, w) :: rest' => String.append sep (String.append w (words_tail rest' trail))
  end.

Definition host_line (lead cn : string) (rest : list (string * string)) (trail : string) : string :=
  String.append lead (String.append cn (words_tail rest trail)).

(** The layout is well formed: [lead] and [trail] are whitespace, the
    words are words, and each separator is a non-empty run of whitespace. *)
Definition host_line_ok (lead cn : string) (rest : list (string * string)) (trail : string) : bool :=
  is_blank lead && is_word cn
  && forallb (fun p => negb (String.eqb (fst p) "") && is_blank (fst p) && is_word (snd p)) rest
  && is_blank trail.


Definition count_events (p : event -> bool) (t : list event) : nat := length (filter p t).

Definition is_connect (e : event) : bool := match e with EConnect => true | _ => false end.
Definition is_close (e : event) : bool := match e with EClose => true | _ => false end.

(** Every certificate write of a trace comes right after a [safe_rename]
    of the same path. *)
Definition renamed_before_write (t : list event) : Prop :=
  forall pre path body post, t = pre ++ EWriteCert path body :: post ->
  exists pre', pre = pre' ++ [ESafeRename path].

(** ** Concrete inputs *)

Definition ex_login : string := "operator".
Definition ex_certdir : string := "certs".
(** A subject whose [split("=")[1]] is the common name. *)
Definition ex_subject (c : csr) : string := String.append "CN=" (csr_common_name c).
(** A [set(hosts)] order: the last occurrence of each distinct tuple. *)
Definition ex_set_order : list host -> list host := nodup (list_eq_dec string_dec).
(** Local operations that never fail. *)
Definition ex_io : local_io :=
  {| csr_error := fun _ => None; write_pkey_error := fun _ => None;
     safe_rename_error := fun _ => None; atomic_write_error := fun _ _ => None |}.
Definition ex_two_hosts : host_source := FromFile ["a.example.org"; "b.example.org"].
(** A duplicated tuple listed after another host. *)
Definition ex_dup_after_other : host_source :=
  FromFile ["b.example.org"; "a.example.org"; "a.example.org"].

(** Collect endpoints: still processing three times then the certificate;
    always still processing; two faults then a connection reset; a clean 404. *)
Definition ex_collect_fourth (sslId : jval) (i : nat) : attempt :=
  match i with 0 | 1 | 2 => ARaise BadStatusLine | _ => AResp 200 "CERT" end.
Definition ex_collect_pending (sslId : jval) (i : nat) : attempt := ARaise BadStatusLine.
Definition ex_collect_reset (sslId : jval) (i : nat) : attempt :=
  match i with 0 | 1 => ARaise BadStatusLine | _ => ARaise SocketError end.
Definition ex_collect_404 (sslId : jval) (i : nat) : attempt := AResp 404 "Not Found".

(** Enrollment endpoints: a 200 whose body has no [sslId]; a refusal. *)
Definition ex_enroll_no_id (p : payload) : post_response :=
  PostResp 200 (Some (JDict [("status", JStr "pending")])).
Definition ex_enroll_refused (p : payload) : post_response := PostResp 400 None.

(** Tracking id 1 for [a.example.org], 2 for any other CSR; the collect
    endpoint is still processing id 1 for ever and answers id 2 at once. *)
Definition ex_enroll_ids (p : payload) : post_response :=
  match payload_get "csr" p with
  | Some (PCsrB64 c) =>
      if String.eqb (csr_common_name c) "a.example.org"
      then PostResp 200 (Some (JDict [("sslId", JNum 1)]))
      else PostResp 200 (Some (JDict [("sslId", JNum 2)]))
  | _ => PostResp 400 None
  end.
Definition ex_collect_by_id (sslId : jval) (i : nat) : attempt :=
  match sslId with
  | JNum z => if Z.eqb z 1 then ARaise BadStatusLine else AResp 200 "CERT-B"
  | _ => ARaise BadStatusLine
  end.

Definition ex_test_options : options :=
  {| opt_hostname := None; opt_hostfile := None;
     opt_write_directory := "."; opt_userprivkey := Some "userkey.pem";
     opt_usercert := Some "usercert.pem"; opt_alt_names := [];
     opt_login := Some "operator"; opt_test := true |}.

Definition ex_hostname_options : options :=
  {| opt_hostname := Some "a.example.org"; opt_hostfile := Some "missing.txt";
     opt_write_directory := "certs"; opt_userprivkey := Some "userkey.pem";
     opt_usercert := Some "usercert.pem"; opt_alt_names := ["www.example.org"];
     opt_login := Some "operator"; opt_test := false |}.

Lemma bind_ret {A B} (a : A) (f : A -> M B) : bind (ret a) f = f a.
Proof. unfold bind, ret; simpl. destruct (f a); reflexivity. Qed.

Lemma bind_tell {B} (e : event) (m : M B) :
  bind (tell e) (fun _ => m) = (e :: fst m, snd m).
Proof. unfold bind, tell; simpl. destruct m; reflexivity. Qed.

Lemma bind_try_io {B} (r : option exn) (m : M B) :
  bind (try_io r) (fun _ => m) = match r with Some e => raise e | None => m end.
Proof. destruct r; [reflexivity|]. unfold bind, try_io, ret; simpl. destruct m; reflexivity. Qed.

Lemma bind_raise {A B} (e : exn) (f : A -> M B) : bind (raise e) f = raise e.
Proof. reflexivity. Qed.

Lemma fst_bind {A B} (m : M A) (f : A -> M B) :
  fst (bind m f) = fst m ++ match snd m with Ok a => fst (f a) | Exc _ => [] end.
Proof.
  destruct m as [t [a|e]]; simpl; [destruct (f a); reflexivity | now rewrite app_nil_r].
Qed.

Lemma snd_bind {A B} (m : M A) (f : A -> M B) :
  snd (bind m f) = match snd m with Ok a => snd (f a) | Exc e => Exc e end.
Proof. destruct m as [t [a|e]]; simpl; [destruct (f a)|]; reflexivity. Qed.

(** ** retrieve_cert *)

Section Retrieval.

Variable login : string.
Variable collect : jval -> nat -> attempt.
Variable cfg : config.
Variable sslId : jval.

Lemma retrieve_loop_retry i fuel :
  is_retry (collect sslId i) = true ->
  retrieve_loop login collect cfg sslId i (S fuel) =
  (retry_block login cfg sslId ++ fst (retrieve_loop login collect cfg sslId (S i) fuel),
   snd (retrieve_loop login collect cfg sslId (S i) fuel)).
Proof.
  intros Hr. simpl. unfold is_retry in Hr.
  destruct (collect sslId i) as [e|st body].
  - rewrite Hr. unfold bind, tell; simpl.
    destruct (retrieve_loop login collect cfg sslId (S i) fuel); reflexivity.
  - destruct (Z.eqb st 200); [discriminate|].
    unfold bind, tell; simpl.
    destruct (retrieve_loop login collect cfg sslId (S i) fuel); reflexivity.
Qed.

Lemma retrieve_loop_retries k i fuel :
  (forall j, j < k -> is_retry (collect sslId (i + j)) = true) ->
  k <= fuel ->
  retrieve_loop login collect cfg sslId i fuel =
  (retries login cfg sslId k ++ fst (retrieve_loop login collect cfg sslId (i + k) (fuel - k)),
   snd (retrieve_loop login collect cfg sslId (i + k) (fuel - k))).
Proof.
  revert i fuel. induction k as [|k IH]; intros i fuel Hj Hle.
  - rewrite Nat.add_0_r, Nat.sub_0_r. destruct (retrieve_loop _ _ _ _ i fuel); reflexivity.
  - destruct fuel as [|fuel]; [lia|].
    rewrite retrieve_loop_retry by (specialize (Hj 0); rewrite Nat.add_0_r in Hj; apply Hj; lia).
    rewrite (IH (S i) fuel).
    + replace (i + S k) with (S i + k) by lia.
      change (S fuel - S k) with (fuel - k).
      change (retries login cfg sslId (S k))
        with (retry_block login cfg sslId ++ retries login cfg sslId k).
      cbn [fst snd]. rewrite app_assoc. reflexivity.
    + intros j Hj'. replace (S i + j) with (i + S j) by lia. apply Hj; lia.
    + lia.
Qed.


Lemma retrieve_loop_success i fuel body :
  collect sslId i = AResp 200 body ->
  retrieve_loop login collect cfg sslId i (S fuel) =
  ([EConnect; retrieve_get login cfg sslId; EClose], Ok (Some body)).
Proof. intros H. cbn [retrieve_loop]. rewrite H. reflexivity. Qed.

Lemma retrieve_loop_fatal i fuel e :
  collect sslId i = ARaise e -> e <> BadStatusLine ->
  retrieve_loop login collect cfg sslId i (S fuel) =
  ([EConnect; retrieve_get login cfg sslId], Exc e).
Proof.
  intros H Hne. cbn [retrieve_loop]. rewrite H.
  destruct e; try (exfalso; apply Hne; reflexivity); reflexivity.
Qed.

End Retrieval.

Lemma count_events_app p t1 t2 :
  count_events p (t1 ++ t2) = count_events p t1 + count_events p t2.
Proof. unfold count_events. now rewrite filter_app, length_app. Qed.

Lemma count_events_zero p t : (forall e, In e t -> p e = false) -> count_events p t = 0.
Proof.
  intros H. unfold count_events. induction t as [|e t IH]; [reflexivity|].
  simpl. rewrite (H e (or_introl eq_refl)). apply IH. intros x Hx. apply H. right. exact Hx.
Qed.

Lemma count_events_retries p login cfg sslId k :
  count_events p (retries login cfg sslId k) = k * count_events p (retry_block login cfg sslId).
Proof.
  induction k as [|k IH]; [reflexivity|].
  change (retries login cfg sslId (S k))
    with (retry_block login cfg sslId ++ retries login cfg sslId k).
  rewrite count_events_app, IH. lia.
Qed.

(** C1.  Three 'still processing' faults then a 200: four queries, a sleep
    of [WAIT_RETRIEVAL] between consecutive queries (three, none after the
    success) and the fourth body returned; twenty faults in a row: the
    'no certificate' value [None], no exception. *)
Theorem retrieve_cert_pending_then_success (login : string)
  (col_ok col_pending : jval -> nat -> attempt) (sslId : jval) (body : string)
  (H0 : col_ok sslId 0 = ARaise BadStatusLine)
  (H1 : col_ok sslId 1 = ARaise BadStatusLine)
  (H2 : col_ok sslId 2 = ARaise BadStatusLine)
  (H3 : col_ok sslId 3 = AResp 200 body)
  (Hp : forall i, i < MAX_RETRY_RETRIEVAL -> col_pending sslId i = ARaise BadStatusLine) :
  retrieve_cert login col_ok CONFIG sslId =
    (retries login CONFIG sslId 3 ++ [EConnect; retrieve_get login CONFIG sslId; EClose],
     Ok (Some body))
  /\ count_events is_get (fst (retrieve_cert login col_ok CONFIG sslId)) = 4
  /\ count_events is_sleep (fst (retrieve_cert login col_ok CONFIG sslId)) = 3
  /\ retrieve_cert login col_pending CONFIG sslId =
       (retries login CONFIG sslId MAX_RETRY_RETRIEVAL, Ok None).
Proof.
  assert (Hok : retrieve_cert login col_ok CONFIG sslId =
    (retries login CONFIG sslId 3 ++ [EConnect; retrieve_get login CONFIG sslId; EClose],
     Ok (Some body))).
  { unfold retrieve_cert.
    rewrite (retrieve_loop_retries login col_ok CONFIG sslId 3 0 MAX_RETRY_RETRIEVAL).
    - change (MAX_RETRY_RETRIEVAL - 3) with (S 16).
      rewrite (retrieve_loop_success login col_ok CONFIG sslId (0 + 3) 16 body H3).
      reflexivity.
    - intros j Hj. simpl. destruct j as [|[|[|j]]]; [rewrite H0|rewrite H1|rewrite H2|lia];
        reflexivity.
    - unfold MAX_RETRY_RETRIEVAL; lia. }
  split; [exact Hok|]. rewrite Hok. cbn [fst].
  split; [reflexivity|]. split; [reflexivity|].
  unfold retrieve_cert.
  rewrite (retrieve_loop_retries login col_pending CONFIG sslId MAX_RETRY_RETRIEVAL 0
             MAX_RETRY_RETRIEVAL).
  - rewrite Nat.sub_diag. cbn [retrieve_loop ret fst snd]. now rewrite app_nil_r.
  - intros j Hj. simpl. rewrite Hp by exact Hj. reflexivity.
  - lia.
Qed.

(** C4.  A transport exception other than [BadStatusLine] at attempt [k]
    propagates at once: the trace ends with that attempt's query, with
    [k + 1] queries and [k] sleeps in all, the rest of the budget unused. *)
Theorem retrieve_cert_fatal_propagates (login : string)
  (collect : jval -> nat -> attempt) (sslId : jval) (k : nat) (e : exn)
  (Hk : k < MAX_RETRY_RETRIEVAL)
  (Hpre : forall j, j < k -> is_retry (collect sslId j) = true)
  (He : collect sslId k = ARaise e)
  (Hne : e <> BadStatusLine) :
  retrieve_cert login collect CONFIG sslId =
    (retries login CONFIG sslId k ++ [EConnect; retrieve_get login CONFIG sslId], Exc e)
  /\ count_events is_get (fst (retrieve_cert login collect CONFIG sslId)) = S k
  /\ count_events is_sleep (fst (retrieve_cert login collect CONFIG sslId)) = k.
Proof.
  assert (Hr : retrieve_cert login collect CONFIG sslId =
    (retries login CONFIG sslId k ++ [EConnect; retrieve_get login CONFIG sslId], Exc e)).
  { unfold retrieve_cert.
    rewrite (retrieve_loop_retries login collect CONFIG sslId k 0 MAX_RETRY_RETRIEVAL)
      by (simpl; assumption || lia).
    destruct (MAX_RETRY_RETRIEVAL - k) as [|f] eqn:Hf; [lia|].
    rewrite (retrieve_loop_fatal login collect CONFIG sslId (0 + k) f e He Hne).
    reflexivity. }
  split; [exact Hr|]. rewrite Hr. cbn [fst].
  rewrite !count_events_app, !count_events_retries. unfold count_events. simpl. lia.
Qed.


(** ** submit_request *)

Lemma submit_request_trace login enroll cfg hostname c sans :
  fst (submit_request login enroll cfg hostname c sans) =
  [EPost (enrollurl cfg) (build_headers login cfg) (build_payload cfg hostname c sans)].
Proof.
  unfold submit_request. rewrite fst_bind. cbn [tell fst snd].
  destruct (enroll _) as [e|st body]; [reflexivity|].
  destruct (Z.eqb st 200); [|reflexivity].
  destruct body as [v|]; [|reflexivity].
  rewrite fst_bind. unfold get_sslId.
  destruct v; try reflexivity.
  destruct (find _ (rev d)) as [[k x]|]; reflexivity.
Qed.

(** C8.  The POST carries the multi-domain type code exactly when there are
    alt-names and the single-server code exactly when there are none, a
    [subjAltNames] entry exactly when there are alt-names, the department
    id, the term and a comment embedding the subject. *)
Theorem submit_request_payload (login : string) (enroll : payload -> post_response)
  (hostname : string) (c : csr) (sans : list string) :
  let p := build_payload CONFIG hostname c sans in
  fst (submit_request login enroll CONFIG hostname c sans) =
    [EPost (enrollurl CONFIG) (build_headers login CONFIG) p]
  /\ (payload_get "certType" p = Some (PStr (igtfmultidomain CONFIG)) <-> sans <> [])
  /\ (payload_get "certType" p = Some (PStr (igtfservercert CONFIG)) <-> sans = [])
  /\ (payload_get "subjAltNames" p <> None <-> sans <> [])
  /\ (sans <> [] -> payload_get "subjAltNames" p = Some (PTuple sans))
  /\ payload_get "orgId" p = Some (PStr (department CONFIG))
  /\ payload_get "term" p = Some (PStr (term CONFIG))
  /\ payload_get "comments" p = Some (PStr (String.append "Certificate request for " hostname)).
Proof.
  intros p. split; [apply submit_request_trace|].
  subst p. destruct sans as [|a sans]; cbn.
  - repeat split; try reflexivity; try congruence; intros H; try discriminate; try tauto.
  - repeat split; try reflexivity; try congruence; intros H; try discriminate; try tauto.
Qed.

(** ** The phases of main *)

Section MainPhases.

#[local] Set Default Proof Using "Type".

Variable login : string.
Variable collect : jval -> nat -> attempt.
Variable enroll : payload -> post_response.
Variable certdir : string.
Variable io : local_io.
Variable subject_of : csr -> string.
Variable set_order : list host -> list host.

Lemma post_of_inj c c' : post_of login subject_of c = post_of login subject_of c' -> c = c'.
Proof. unfold post_of, build_payload. intros H. injection H. intros. assumption. Qed.

Lemma build_csrs_events hs e :
  In e (fst (build_csrs certdir io hs)) -> exists c, e = ENewCsr c.
Proof.
  clear collect set_order enroll subject_of.
  induction hs as [|h hs IH]; [simpl; intros []|].
  destruct h as [|cn sans]; [simpl; intros []|].
  cbn [build_csrs]. rewrite bind_try_io.
  destruct (csr_error io (Csr cn certdir sans)); [simpl; intros []|].
  simpl.
  destruct (build_csrs certdir io hs) as [t [a|ex]]; simpl in IH |- *;
    rewrite ?app_nil_r; intros [<-|H];
    [exists (Csr cn certdir sans); reflexivity|exact (IH H)
    |exists (Csr cn certdir sans); reflexivity|exact (IH H)].
Qed.

Lemma retrieve_loop_events cfg sslId i fuel e :
  In e (fst (retrieve_loop login collect cfg sslId i fuel)) -> retrieval_event e = true.
Proof.
  clear certdir set_order enroll subject_of.
  revert i. induction fuel as [|fuel IH]; intros i; simpl; [tauto|].
  destruct (retrieve_loop login collect cfg sslId (S i) fuel) as [t r] eqn:E.
  assert (Ht : In e t -> retrieval_event e = true).
  { intros Hx. apply (IH (S i)). rewrite E. exact Hx. }
  destruct (collect sslId i) as [ex|st body].
  - destruct (is_BadStatusLine ex); simpl;
      intros H; repeat (destruct H as [<-|H]; [reflexivity|]); auto; tauto.
  - destruct (Z.eqb st 200); simpl;
      intros H; repeat (destruct H as [<-|H]; [reflexivity|]); auto; tauto.
Qed.

Lemma submit_all_cons_fst c cs :
  fst (submit_all login enroll io subject_of (c :: cs)) =
  post_of login subject_of c ::
  match snd (submit_request login enroll CONFIG (subject_of c) c (altnames c)) with
  | Ok (Some v) =>
      if truthy v then
        EWriteKey c :: match write_pkey_error io c with
                       | Some _ => []
                       | None => fst (submit_all login enroll io subject_of cs)
                       end
      else fst (submit_all login enroll io subject_of cs)
  | Ok None => fst (submit_all login enroll io subject_of cs)
  | Exc _ => []
  end.
Proof.
  clear collect certdir set_order.
  cbn [submit_all]. rewrite fst_bind, submit_request_trace. cbn [app].
  destruct (snd (submit_request _ _ _ _ _ _)) as [[v|]|e]; [|reflexivity|reflexivity].
  destruct (truthy v); [|reflexivity].
  rewrite bind_tell. cbn [fst]. rewrite bind_try_io.
  destruct (write_pkey_error io c); [reflexivity|]. rewrite fst_bind.
  destruct (snd (submit_all _ _ _ _ cs)); simpl; rewrite ?app_nil_r; reflexivity.
Qed.

Lemma submit_all_cons_snd c cs :
  snd (submit_all login enroll io subject_of (c :: cs)) =
  match snd (submit_request login enroll CONFIG (subject_of c) c (altnames c)) with
  | Ok (Some v) =>
      if truthy v then
        match write_pkey_error io c with
        | Some e => Exc e
        | None =>
            match snd (submit_all login enroll io subject_of cs) with
            | Ok rq => Ok ((v, subject_of c) :: rq)
            | Exc e => Exc e
            end
        end
      else snd (submit_all login enroll io subject_of cs)
  | Ok None => snd (submit_all login enroll io subject_of cs)
  | Exc e => Exc e
  end.
Proof.
  clear collect certdir set_order.
  cbn [submit_all]. rewrite snd_bind.
  destruct (snd (submit_request _ _ _ _ _ _)) as [[v|]|e]; [|reflexivity|reflexivity].
  destruct (truthy v); [|reflexivity].
  rewrite bind_tell. cbn [snd]. rewrite bind_try_io.
  destruct (write_pkey_error io c); [reflexivity|]. rewrite snd_bind.
  destruct (snd (submit_all _ _ _ _ cs)); reflexivity.
Qed.

Lemma ticket_of_Some c v :
  ticket_of login enroll subject_of c = Some v <->
  snd (submit_request login enroll CONFIG (subject_of c) c (altnames c)) = Ok (Some v)
  /\ truthy v = true.
Proof.
  clear collect certdir set_order.
  unfold ticket_of.
  destruct (snd (submit_request _ _ _ _ _ _)) as [[w|]|e].
  - destruct (truthy w) eqn:T; split; intros H.
    + inversion H; subst; auto.
    + destruct H as [H _]; inversion H; reflexivity.
    + discriminate.
    + destruct H as [H H']; inversion H; subst; congruence.
  - split; [discriminate|intros [H _]; discriminate].
  - split; [discriminate|intros [H _]; discriminate].
Qed.

Lemma submit_all_events cs e :
  In e (fst (submit_all login enroll io subject_of cs)) ->
  exists c, In c cs /\ (e = post_of login subject_of c \/ e = EWriteKey c).
Proof.
  clear collect certdir set_order.
  induction cs as [|c cs IH]; [simpl; tauto|].
  rewrite submit_all_cons_fst. intros [<-|H]; [exists c; simpl; auto|].
  assert (Hrec : In e (fst (submit_all login enroll io subject_of cs)) ->
                 exists c', In c' (c :: cs) /\
                 (e = post_of login subject_of c' \/ e = EWriteKey c')).
  { intros H'. destruct (IH H') as (c' & Hc' & He). exists c'. simpl; auto. }
  destruct (snd (submit_request _ _ _ _ _ _)) as [[v|]|ex]; [|auto|simpl in H; tauto].
  destruct (truthy v); [|auto].
  destruct H as [<-|H]; [exists c; simpl; auto|].
  destruct (write_pkey_error io c); [simpl in H; tauto|auto].
Qed.

Lemma submit_all_write_key cs c :
  In (EWriteKey c) (fst (submit_all login enroll io subject_of cs)) <->
  In (post_of login subject_of c) (fst (submit_all login enroll io subject_of cs))
  /\ ticket_of login enroll subject_of c <> None.
Proof.
  clear collect certdir set_order.
  induction cs as [|c' cs IH]; [simpl; tauto|].
  rewrite submit_all_cons_fst.
  destruct (csr_eq_dec c c') as [<-|Hne].
  - unfold ticket_of in *.
    destruct (snd (submit_request login enroll CONFIG (subject_of c) c (altnames c)))
      as [[v|]|e]; [destruct (truthy v); [destruct (write_pkey_error io c)|]|..];
      cbn [In] in *; rewrite ?IH;
      unfold post_of; intuition (try discriminate; try congruence).
  - assert (Hp : post_of login subject_of c' <> post_of login subject_of c)
      by (intros H; apply Hne; symmetry; apply post_of_inj; exact H).
    assert (Hk : EWriteKey c' <> EWriteKey c) by congruence.
    destruct (snd (submit_request login enroll CONFIG (subject_of c') c' (altnames c')))
      as [[v|]|e]; [destruct (truthy v); [destruct (write_pkey_error io c')|]|..];
      cbn [In]; rewrite ?IH;
      unfold post_of in *; intuition (try discriminate; try congruence).
Qed.

Lemma submit_all_requests cs rq v subj :
  snd (submit_all login enroll io subject_of cs) = Ok rq -> In (v, subj) rq ->
  exists c, In (EWriteKey c) (fst (submit_all login enroll io subject_of cs))
            /\ ticket_of login enroll subject_of c = Some v /\ subj = subject_of c.
Proof.
  clear collect certdir set_order.
  revert rq. induction cs as [|c cs IH]; intros rq.
  - simpl. intros H; inversion H; subst; simpl; tauto.
  - rewrite submit_all_cons_snd, submit_all_cons_fst.
    pose proof (ticket_of_Some c) as Ht.
    destruct (snd (submit_request login enroll CONFIG (subject_of c) c (altnames c)))
      as [[w|]|e]; [destruct (truthy w) eqn:T|..]; intros Hs Hin.
    + destruct (write_pkey_error io c) as [e|]; [discriminate|].
      destruct (snd (submit_all login enroll io subject_of cs)) as [rq'|e] eqn:E;
        [|discriminate].
      inversion Hs; subst rq. destruct Hin as [Hin|Hin].
      * inversion Hin; subst. exists c. split; [simpl; auto|].
        split; [apply Ht; auto|reflexivity].
      * destruct (IH rq' eq_refl Hin) as (c' & H1 & H2 & H3).
        exists c'. simpl. auto.
    + destruct (IH rq Hs Hin) as (c' & H1 & H2 & H3). exists c'. simpl. auto.
    + destruct (IH rq Hs Hin) as (c' & H1 & H2 & H3). exists c'. simpl. auto.
    + discriminate.
Qed.

Lemma submit_all_abort cs c e :
  In (post_of login subject_of c) (fst (submit_all login enroll io subject_of cs)) ->
  snd (submit_request login enroll CONFIG (subject_of c) c (altnames c)) = Exc e ->
  exists pre, fst (submit_all login enroll io subject_of cs) = pre ++ [post_of login subject_of c]
              /\ snd (submit_all login enroll io subject_of cs) = Exc e.
Proof.
  clear collect certdir set_order.
  intros Hin He. induction cs as [|c' cs IH]; [simpl in Hin; tauto|].
  rewrite submit_all_cons_fst in Hin |- *. rewrite submit_all_cons_snd.
  destruct (csr_eq_dec c c') as [<-|Hne].
  - rewrite He. exists []. auto.
  - assert (Hp : post_of login subject_of c' <> post_of login subject_of c)
      by (intros H; apply Hne; symmetry; apply post_of_inj; exact H).
    destruct Hin as [Hin|Hin]; [contradiction|].
    destruct (snd (submit_request login enroll CONFIG (subject_of c') c' (altnames c')))
      as [[v|]|e']; [destruct (truthy v)|..].
    + destruct Hin as [Hin|Hin]; [discriminate|].
      destruct (write_pkey_error io c') as [e''|]; [destruct Hin|].
      destruct (IH Hin) as (pre & H1 & H2). rewrite H1, H2.
      exists (post_of login subject_of c' :: EWriteKey c' :: pre). auto.
    + destruct (IH Hin) as (pre & H1 & H2). rewrite H1, H2.
      exists (post_of login subject_of c' :: pre). auto.
    + destruct (IH Hin) as (pre & H1 & H2). rewrite H1, H2.
      exists (post_of login subject_of c' :: pre). auto.
    + destruct Hin.
Qed.

Lemma cert_path_trace subj : fst (cert_path certdir subj) = [].
Proof. unfold cert_path. destruct (nth_error _ 1); reflexivity. Qed.

Lemma retrieve_all_cons_fst sslId subj rest :
  fst (retrieve_all login collect certdir io ((sslId, subj) :: rest)) =
  fst (retrieve_cert login collect CONFIG sslId) ++
  match snd (retrieve_cert login collect CONFIG sslId) with
  | Ok (Some body) =>
      match snd (cert_path certdir subj) with
      | Ok path =>
          ESafeRename path ::
          match safe_rename_error io path with
          | Some _ => []
          | None =>
              EWriteCert path body ::
              match atomic_write_error io path body with
              | Some _ => []
              | None => fst (retrieve_all login collect certdir io rest)
              end
          end
      | Exc _ => []
      end
  | Ok None => fst (retrieve_all login collect certdir io rest)
  | Exc _ => []
  end.
Proof.
  clear set_order enroll subject_of.
  cbn [retrieve_all]. rewrite fst_bind.
  destruct (snd (retrieve_cert login collect CONFIG sslId)) as [[body|]|e]; [|reflexivity..].
  rewrite fst_bind, cert_path_trace. cbn [app].
  destruct (snd (cert_path certdir subj)) as [path|e]; [|reflexivity].
  rewrite bind_tell, bind_try_io. cbn [fst].
  destruct (safe_rename_error io path); [reflexivity|].
  rewrite bind_tell, bind_try_io. cbn [fst].
  destruct (atomic_write_error io path body); reflexivity.
Qed.

Lemma retrieve_all_events rq e :
  In e (fst (retrieve_all login collect certdir io rq)) -> retrieval_phase_event e.
Proof.
  clear set_order enroll subject_of.
  unfold retrieval_phase_event.
  induction rq as [|[sslId subj] rq IH]; [simpl; tauto|].
  rewrite retrieve_all_cons_fst. intros H. apply in_app_or in H.
  destruct H as [H|H]; [left; eapply retrieve_loop_events; exact H|].
  destruct (snd (retrieve_cert login collect CONFIG sslId)) as [[body|]|ex]; [|auto|destruct H].
  destruct (snd (cert_path certdir subj)) as [path|ex]; [|destruct H].
  destruct H as [<-|H]; [eauto|].
  destruct (safe_rename_error io path); [destruct H|].
  destruct H as [<-|H]; [eauto|].
  destruct (atomic_write_error io path body); [destruct H|eauto].
Qed.

Lemma retrieve_all_cert rq path body :
  In (EWriteCert path body) (fst (retrieve_all login collect certdir io rq)) ->
  exists sslId subj, In (sslId, subj) rq
    /\ snd (retrieve_cert login collect CONFIG sslId) = Ok (Some body)
    /\ snd (cert_path certdir subj) = Ok path.
Proof.
  clear set_order enroll subject_of.
  induction rq as [|[sslId subj] rq IH]; [simpl; tauto|].
  rewrite retrieve_all_cons_fst. intros H. apply in_app_or in H.
  destruct H as [H|H].
  - apply retrieve_loop_events in H. discriminate.
  - destruct (snd (retrieve_cert login collect CONFIG sslId)) as [[b|]|ex] eqn:R;
      [|destruct (IH H) as (v & sj & ?); exists v, sj; simpl; tauto|destruct H].
    destruct (snd (cert_path certdir subj)) as [p|ex] eqn:P; [|destruct H].
    destruct H as [H|H]; [discriminate|].
    destruct (safe_rename_error io p); [destruct H|].
    destruct H as [H|H].
    + inversion H; subst. exists sslId, subj. simpl. auto.
    + destruct (atomic_write_error io p b); [destruct H|].
      destruct (IH H) as (v & sj & ?). exists v, sj. simpl. tauto.
Qed.

Lemma main_batch_fst hosts :
  let B := build_csrs certdir io (set_order hosts) in
  fst (main_batch login collect enroll certdir io subject_of set_order hosts) =
  fst B ++
  match snd B with
  | Ok cs =>
      fst (submit_all login enroll io subject_of cs) ++
      match snd (submit_all login enroll io subject_of cs) with
      | Ok rq =>
          EClose :: ESleep WAIT_APPROVAL ::
          fst (retrieve_all login collect certdir io rq) ++
          match snd (retrieve_all login collect certdir io rq) with
          | Ok _ => [ESpecified (length cs); ERetrievedOk (length rq)]
          | Exc _ => []
          end
      | Exc _ => []
      end
  | Exc _ => []
  end.
Proof.
  intros B. unfold main_batch. fold B. rewrite fst_bind.
  destruct (snd B) as [cs|e]; [|reflexivity]. f_equal.
  rewrite fst_bind. destruct (snd (submit_all _ _ _ _ cs)) as [rq|e]; [|reflexivity]. f_equal.
  rewrite !bind_tell. cbn [fst snd]. f_equal. f_equal.
  rewrite fst_bind. destruct (snd (retrieve_all _ _ _ _ rq)) as [[]|e]; [|reflexivity].
  reflexivity.
Qed.

Lemma main_batch_snd hosts :
  let B := build_csrs certdir io (set_order hosts) in
  snd (main_batch login collect enroll certdir io subject_of set_order hosts) =
  match snd B with
  | Ok cs =>
      match snd (submit_all login enroll io subject_of cs) with
      | Ok rq => match snd (retrieve_all login collect certdir io rq) with
                 | Ok _ => Ok tt
                 | Exc e => Exc e
                 end
      | Exc e => Exc e
      end
  | Exc e => Exc e
  end.
Proof.
  intros B. unfold main_batch. fold B. rewrite snd_bind.
  destruct (snd B) as [cs|e]; [|reflexivity].
  rewrite snd_bind. destruct (snd (submit_all _ _ _ _ cs)) as [rq|e]; [|reflexivity].
  rewrite !bind_tell. cbn [snd]. rewrite snd_bind.
  destruct (snd (retrieve_all _ _ _ _ rq)) as [[]|e]; reflexivity.
Qed.

Lemma main_run_fst src :
  exists extra,
    fst (main_run login collect enroll certdir io subject_of set_order src) =
    fst (main_batch login collect enroll certdir io subject_of set_order (parse_hosts src)) ++ extra
    /\ forall x, In x extra -> exists k, x = EKeyNotFound k.
Proof.
  unfold main_run.
  destruct (main_batch login collect enroll certdir io subject_of set_order (parse_hosts src))
    as [t [a|e]].
  - exists []. split; [now rewrite app_nil_r|simpl; tauto].
  - destruct e; try (exists []; split; [now rewrite app_nil_r|simpl; tauto]).
    exists [EKeyNotFound k]. split; [reflexivity|]. intros x [<-|[]]. eauto.
Qed.

Lemma main_batch_submit_phase hosts x :
  submit_phase_event x = true ->
  In x (fst (main_batch login collect enroll certdir io subject_of set_order hosts)) <->
  match snd (build_csrs certdir io (set_order hosts)) with
  | Ok cs => In x (fst (submit_all login enroll io subject_of cs))
  | Exc _ => False
  end.
Proof.
  intros Hx. rewrite main_batch_fst. cbv zeta. rewrite in_app_iff.
  assert (HB : ~ In x (fst (build_csrs certdir io (set_order hosts)))).
  { intros H. destruct (build_csrs_events _ _ H) as [c ->]. discriminate. }
  destruct (snd (build_csrs certdir io (set_order hosts))) as [cs|e];
    [|simpl; tauto].
  rewrite in_app_iff.
  destruct (snd (submit_all login enroll io subject_of cs)) as [rq|e]; [|simpl; tauto].
  assert (HR : ~ In x (fst (retrieve_all login collect certdir io rq))).
  { intros H. apply retrieve_all_events in H.
    destruct H as [H|[[p ->]|[p [b ->]]]]; [destruct x|..]; discriminate. }
  split; [|tauto]. intros [H|[H|H]]; [tauto|tauto|].
  destruct H as [<-|[<-|H]]; [discriminate|discriminate|].
  rewrite in_app_iff in H. destruct H as [H|H]; [tauto|].
  destruct (snd (retrieve_all _ _ _ _ rq)); simpl in H;
    [destruct H as [<-|[<-|[]]]; discriminate|tauto].
Qed.

Lemma main_run_submit_phase src x :
  submit_phase_event x = true ->
  In x (fst (main_run login collect enroll certdir io subject_of set_order src)) <->
  match snd (build_csrs certdir io (set_order (parse_hosts src))) with
  | Ok cs => In x (fst (submit_all login enroll io subject_of cs))
  | Exc _ => False
  end.
Proof.
  intros Hx. destruct (main_run_fst src) as (extra & -> & Hextra).
  rewrite in_app_iff, <- main_batch_submit_phase by exact Hx.
  split; [|tauto]. intros [H|H]; [exact H|].
  destruct (Hextra x H) as [k ->]. discriminate.
Qed.

Lemma build_csrs_ok hs :
  (forall h, In h hs -> h <> []) ->
  (forall h, In h hs -> csr_error io (mk_csr certdir h) = None) ->
  build_csrs certdir io hs =
  (map (fun h => ENewCsr (mk_csr certdir h)) hs, Ok (map (mk_csr certdir) hs)).
Proof.
  clear collect set_order enroll subject_of.
  induction hs as [|h hs IH]; intros Hne Hio; [reflexivity|].
  destruct h as [|cn sans]; [exfalso; apply (Hne []); [left|]; reflexivity|].
  cbn [build_csrs]. rewrite bind_try_io.
  change (Csr cn certdir sans) with (mk_csr certdir (cn :: sans)).
  rewrite (Hio (cn :: sans) (or_introl eq_refl)).
  simpl. rewrite IH by (intros h' Hh'; (apply Hne || apply Hio); right; exact Hh').
  simpl. rewrite app_nil_r. reflexivity.
Qed.

Lemma count_newcsr c cs :
  count_events (is_newcsr_of c) (map ENewCsr cs) = count_occ csr_eq_dec cs c.
Proof.
  clear collect certdir set_order enroll subject_of.
  induction cs as [|c' cs IH]; [reflexivity|].
  unfold count_events in *. simpl. unfold csr_eqb.
  destruct (csr_eq_dec c c') as [<-|Hne].
  - destruct (csr_eq_dec c c); [simpl; rewrite IH; reflexivity|contradiction].
  - destruct (csr_eq_dec c' c); [congruence|exact IH].
Qed.

Lemma is_post_of_post c c' :
  is_post_of c (post_of login subject_of c') = csr_eqb c c'.
Proof. clear collect certdir set_order enroll. reflexivity. Qed.

Lemma submit_all_total cs c :
  (forall c', In c' cs ->
     exists r, snd (submit_request login enroll CONFIG (subject_of c') c' (altnames c')) = Ok r) ->
  (forall c', In c' cs -> write_pkey_error io c' = None) ->
  (exists rq, snd (submit_all login enroll io subject_of cs) = Ok rq)
  /\ count_events (is_post_of c) (fst (submit_all login enroll io subject_of cs)) =
     count_occ csr_eq_dec cs c.
Proof.
  clear collect certdir set_order.
  induction cs as [|c' cs IH]; intros Hok Hkey;
    [split; [eexists; reflexivity|reflexivity]|].
  destruct IH as [[rq Hrq] Hcnt];
    [intros x Hx; apply Hok; right; exact Hx|intros x Hx; apply Hkey; right; exact Hx|].
  destruct (Hok c' (or_introl eq_refl)) as [r Hr].
  rewrite submit_all_cons_snd, submit_all_cons_fst, Hr, Hrq, (Hkey c' (or_introl eq_refl)).
  unfold count_events in *. cbn [filter]. rewrite is_post_of_post.
  assert (Hc : count_occ csr_eq_dec (c' :: cs) c =
               (if csr_eqb c c' then 1 else 0) + count_occ csr_eq_dec cs c).
  { simpl. unfold csr_eqb.
    destruct (csr_eq_dec c' c), (csr_eq_dec c c'); subst; try congruence; reflexivity. }
  rewrite Hc.
  destruct r as [v|]; [destruct (truthy v)|]; split; try (eexists; reflexivity);
    destruct (csr_eqb c c'); simpl; rewrite ?Hcnt; reflexivity.
Qed.

Lemma count_events_cons p e t :
  count_events p (e :: t) = (if p e then 1 else 0) + count_events p t.
Proof. clear. unfold count_events. simpl. destruct (p e); reflexivity. Qed.

Lemma count_occ_csr_cons (c c' : csr) cs :
  count_occ csr_eq_dec (c' :: cs) c = (if csr_eqb c c' then 1 else 0) + count_occ csr_eq_dec cs c.
Proof.
  clear. simpl. unfold csr_eqb.
  destruct (csr_eq_dec c' c), (csr_eq_dec c c'); subst; try congruence; reflexivity.
Qed.

Lemma build_csrs_count hs c :
  (forall h, In h hs -> h <> []) ->
  count_events (is_newcsr_of c) (fst (build_csrs certdir io hs))
    <= count_occ csr_eq_dec (map (mk_csr certdir) hs) c
  /\ forall cs, snd (build_csrs certdir io hs) = Ok cs ->
     cs = map (mk_csr certdir) hs /\ fst (build_csrs certdir io hs) = map ENewCsr cs.
Proof.
  clear collect set_order enroll subject_of.
  induction hs as [|h hs IH]; intros Hne.
  - split; [unfold count_events; cbn; lia|]. intros cs H. inversion H; subst. split; reflexivity.
  - destruct h as [|cn sans]; [exfalso; exact (Hne [] (or_introl eq_refl) eq_refl)|].
    destruct IH as [IH1 IH2]; [intros h Hh; apply Hne; right; exact Hh|].
    cbn [build_csrs]. rewrite bind_try_io.
    destruct (csr_error io (Csr cn certdir sans)).
    + split; [unfold count_events; cbn; lia|intros cs H; discriminate].
    + rewrite bind_tell. cbn [fst snd map]. rewrite fst_bind, snd_bind.
      destruct (build_csrs certdir io hs) as [t [cs'|e]] eqn:E; cbn [fst snd] in *.
      * rewrite app_nil_r, count_events_cons, count_occ_csr_cons.
        destruct (IH2 cs' eq_refl) as [-> ->]. split.
        { cbn [is_newcsr_of mk_csr]. destruct (csr_eqb c _); lia. }
        intros cs H. inversion H; subst. split; reflexivity.
      * rewrite app_nil_r, count_events_cons, count_occ_csr_cons. split.
        { cbn [is_newcsr_of mk_csr]. destruct (csr_eqb c _); lia. }
        intros cs H; discriminate.
Qed.

Lemma submit_all_post_count cs c :
  count_events (is_post_of c) (fst (submit_all login enroll io subject_of cs))
    <= count_occ csr_eq_dec cs c
  /\ forall rq, snd (submit_all login enroll io subject_of cs) = Ok rq ->
     count_events (is_post_of c) (fst (submit_all login enroll io subject_of cs))
     = count_occ csr_eq_dec cs c.
Proof.
  clear collect certdir set_order.
  induction cs as [|c' cs [IH1 IH2]].
  - split; [unfold count_events; cbn; lia|reflexivity].
  - rewrite submit_all_cons_fst, submit_all_cons_snd, count_events_cons, is_post_of_post,
      count_occ_csr_cons.
    destruct (snd (submit_request login enroll CONFIG (subject_of c') c' (altnames c')))
      as [[v|]|e]; [destruct (truthy v); [destruct (write_pkey_error io c')|]|..].
    + split; [|intros rq H; discriminate].
      rewrite count_events_cons. cbn. destruct (csr_eqb c c'); lia.
    + rewrite count_events_cons. cbn [is_post_of].
      destruct (snd (submit_all login enroll io subject_of cs)) as [rq'|e] eqn:E.
      * split; [lia|]. intros rq _. rewrite (IH2 rq' eq_refl). lia.
      * split; [lia|intros rq H; discriminate].
    + split; [lia|]. intros rq H. rewrite (IH2 rq H). reflexivity.
    + split; [lia|]. intros rq H. rewrite (IH2 rq H). reflexivity.
    + split; [|intros rq H; discriminate]. cbn. destruct (csr_eqb c c'); lia.
Qed.

(** Predicates that see neither the retrieval phase nor the summary and
    handler lines count the events of CSR building and submission only. *)
Lemma main_run_count_early p src :
  (forall e, retrieval_phase_event e -> p e = false) ->
  (forall k, p (EKeyNotFound k) = false) ->
  (forall n, p (ESpecified n) = false) -> (forall n, p (ERetrievedOk n) = false) ->
  count_events p (fst (main_run login collect enroll certdir io subject_of set_order src)) =
  count_events p (fst (build_csrs certdir io (set_order (parse_hosts src)))) +
  match snd (build_csrs certdir io (set_order (parse_hosts src))) with
  | Ok cs => count_events p (fst (submit_all login enroll io subject_of cs))
  | Exc _ => 0
  end.
Proof.
  intros Hp Hk Hs Hr.
  destruct (main_run_fst src) as (extra & -> & Hextra).
  rewrite count_events_app, main_batch_fst. cbv zeta. rewrite count_events_app.
  rewrite (count_events_zero p extra) by (intros e He; destruct (Hextra e He) as [k ->]; apply Hk).
  destruct (snd (build_csrs certdir io (set_order (parse_hosts src)))) as [cs|e];
    [|unfold count_events; cbn; lia].
  rewrite count_events_app.
  destruct (snd (submit_all login enroll io subject_of cs)) as [rq|e]; [|unfold count_events; cbn; lia].
  rewrite (count_events_zero p (EClose :: _)); [lia|].
  intros e He.
  destruct He as [<-|[<-|He]]; [apply Hp; left; reflexivity|apply Hp; left; reflexivity|].
  apply in_app_or in He. destruct He as [He|He].
  - apply Hp. eapply retrieve_all_events. exact He.
  - destruct (snd (retrieve_all login collect certdir io rq)); [|destruct He].
    destruct He as [<-|[<-|[]]]; [apply Hs|apply Hr].
Qed.

Lemma main_run_exit_0 src :
  snd (main_run login collect enroll certdir io subject_of set_order src) = 0 ->
  exists cs rq, snd (build_csrs certdir io (set_order (parse_hosts src))) = Ok cs
             /\ snd (submit_all login enroll io subject_of cs) = Ok rq.
Proof.
  pose proof (main_batch_snd (parse_hosts src)) as Hs. cbv zeta in Hs.
  unfold main_run.
  destruct (main_batch login collect enroll certdir io subject_of set_order (parse_hosts src))
    as [t [a|e]]; cbn [snd] in Hs |- *.
  - intros _.
    destruct (snd (build_csrs certdir io (set_order (parse_hosts src)))) as [cs|e];
      [|discriminate].
    destruct (snd (submit_all login enroll io subject_of cs)) as [rq|e] eqn:E;
      [|discriminate].
    exists cs, rq. auto.
  - destruct e; discriminate.
Qed.

End MainPhases.

(** C5.  A key file is written for a CSR exactly when main submitted it and
    the submission gave a tracking id that passes [if response_request:]:
    a failed submission, or one without a usable id, writes no key. *)
Theorem main_key_written_iff_ticket (login : string) (collect : jval -> nat -> attempt)
  (enroll : payload -> post_response) (certdir : string) (io : local_io) (subject_of : csr -> string)
  (set_order : list host -> list host) (src : host_source) (c : csr) :
  let run := fst (main_run login collect enroll certdir io subject_of set_order src) in
  In (EWriteKey c) run <->
  In (post_of login subject_of c) run /\ ticket_of login enroll subject_of c <> None.
Proof.
  intros run. unfold run.
  rewrite (main_run_submit_phase login collect enroll certdir io subject_of set_order src
             (EWriteKey c) eq_refl).
  rewrite (main_run_submit_phase login collect enroll certdir io subject_of set_order src
             (post_of login subject_of c) eq_refl).
  destruct (snd (build_csrs certdir io (set_order (parse_hosts src)))) as [cs|e]; [|tauto].
  apply submit_all_write_key.
Qed.

(** C10.  Every key write happens before the approval wait and before any
    retrieval query; every certificate file written holds the bytes the
    retrieval for a ticketed CSR returned; so a ticketed CSR whose retrieval
    returned [None] keeps its key file and gets no certificate file (when no
    other ticketed CSR maps to the same certificate path). *)
Theorem main_key_before_retrieval (login : string) (collect : jval -> nat -> attempt)
  (enroll : payload -> post_response) (certdir : string) (io : local_io) (subject_of : csr -> string)
  (set_order : list host -> list host) (src : host_source) :
  let run := fst (main_run login collect enroll certdir io subject_of set_order src) in
  (exists A B, run = A ++ B
     /\ (forall e, In e A -> is_get e = false /\ e <> ESleep WAIT_APPROVAL)
     /\ (forall e, In e B -> is_write_key e = false)
     /\ ((exists B', B = EClose :: ESleep WAIT_APPROVAL :: B')
         \/ forall e, In e B -> is_get e = false))
  /\ (forall path body, In (EWriteCert path body) run ->
        exists c v, In (EWriteKey c) run
          /\ ticket_of login enroll subject_of c = Some v
          /\ snd (retrieve_cert login collect CONFIG v) = Ok (Some body)
          /\ snd (cert_path certdir (subject_of c)) = Ok path)
  /\ (forall c v path,
        In (EWriteKey c) run ->
        ticket_of login enroll subject_of c = Some v ->
        snd (retrieve_cert login collect CONFIG v) = Ok None ->
        snd (cert_path certdir (subject_of c)) = Ok path ->
        (forall c', In (EWriteKey c') run ->
                    snd (cert_path certdir (subject_of c')) = Ok path -> c' = c) ->
        forall body, ~ In (EWriteCert path body) run).
Proof.
  intros run.
  destruct (main_run_fst login collect enroll certdir io subject_of set_order src)
    as (extra & Hrun & Hextra).
  assert (Hprov : forall path body, In (EWriteCert path body) run ->
        exists c v, In (EWriteKey c) run
          /\ ticket_of login enroll subject_of c = Some v
          /\ snd (retrieve_cert login collect CONFIG v) = Ok (Some body)
          /\ snd (cert_path certdir (subject_of c)) = Ok path).
  { intros path body H. unfold run in *. rewrite Hrun in H.
    apply in_app_or in H. destruct H as [H|H];
      [|destruct (Hextra _ H) as [k Hk]; discriminate].
    rewrite main_batch_fst in H. cbv zeta in H. apply in_app_or in H.
    destruct H as [H|H]; [apply build_csrs_events in H; destruct H as [c' Hc']; discriminate|].
    destruct (snd (build_csrs certdir io (set_order (parse_hosts src)))) as [cs|e] eqn:EB;
      [|destruct H].
    apply in_app_or in H. destruct H as [H|H].
    { apply submit_all_events in H; destruct H as (c' & _ & [Hc'|Hc']); discriminate. }
    destruct (snd (submit_all login enroll io subject_of cs)) as [rq|e] eqn:ES; [|destruct H].
    destruct H as [H|[H|H]]; try discriminate.
    apply in_app_or in H. destruct H as [H|H].
    - apply retrieve_all_cert in H; destruct H as (v & subj & Hin & Hr & Hp).
      destruct (submit_all_requests login enroll io subject_of cs rq v subj ES Hin)
        as (c & Hk & Ht & ->).
      exists c, v. split; [|auto].
      apply (main_run_submit_phase login collect enroll certdir io subject_of set_order src
               (EWriteKey c) eq_refl).
      rewrite EB. exact Hk.
    - destruct (snd (retrieve_all _ _ _ _ rq)); simpl in H;
        [destruct H as [H|[H|[]]]; discriminate|destruct H]. }
  split; [|split; [exact Hprov|]].
  - unfold run. rewrite Hrun, main_batch_fst. cbv zeta.
    assert (HBe : forall e, In e (fst (build_csrs certdir io (set_order (parse_hosts src)))) ->
                            is_get e = false /\ e <> ESleep WAIT_APPROVAL).
    { intros e H. apply build_csrs_events in H; destruct H as [c ->]. split; [reflexivity|discriminate]. }
    assert (Hxe : forall e, In e extra -> is_get e = false /\ is_write_key e = false).
    { intros e H. destruct (Hextra e H) as [k ->]. split; reflexivity. }
    destruct (snd (build_csrs certdir io (set_order (parse_hosts src)))) as [cs|e];
      [|exists (fst (build_csrs certdir io (set_order (parse_hosts src)))), extra;
        rewrite app_nil_r; repeat split; try apply HBe; try apply Hxe; auto;
        right; apply Hxe].
    assert (HSe : forall e, In e (fst (submit_all login enroll io subject_of cs)) ->
                            is_get e = false /\ e <> ESleep WAIT_APPROVAL).
    { intros e H. apply submit_all_events in H; destruct H as (c & _ & [->| ->]);
        split; try reflexivity; discriminate. }
    exists (fst (build_csrs certdir io (set_order (parse_hosts src)))
            ++ fst (submit_all login enroll io subject_of cs)).
    destruct (snd (submit_all login enroll io subject_of cs)) as [rq|e].
    + exists ((EClose :: ESleep WAIT_APPROVAL :: fst (retrieve_all login collect certdir io rq)
               ++ match snd (retrieve_all login collect certdir io rq) with
                  | Ok _ => [ESpecified (length cs); ERetrievedOk (length rq)]
                  | Exc _ => []
                  end) ++ extra).
      split; [now rewrite !app_assoc|].
      split; [intros e H; apply in_app_or in H; destruct H; auto|].
      split; [|left; eexists; reflexivity].
      intros e H. apply in_app_or in H. destruct H as [H|H]; [|apply Hxe; exact H].
      destruct H as [<-|[<-|H]]; try reflexivity.
      apply in_app_or in H. destruct H as [H|H].
      * apply retrieve_all_events in H.
        destruct H as [H|[[p ->]|[p [b ->]]]]; [destruct e; try discriminate|..]; reflexivity.
      * destruct (snd (retrieve_all _ _ _ _ rq)); simpl in H;
          [destruct H as [<-|[<-|[]]]; reflexivity|destruct H].
    + exists extra. split; [now rewrite app_nil_r|].
      split; [intros e0 H; apply in_app_or in H; destruct H; auto|].
      split; [apply Hxe|right; apply Hxe].
  - intros c v path Hk Ht Hr Hp Huniq body Hw.
    destruct (Hprov path body Hw) as (c' & v' & Hk' & Ht' & Hr' & Hp').
    pose proof (Huniq c' Hk' Hp') as ->. rewrite Ht in Ht'. inversion Ht'; subst.
    rewrite Hr in Hr'. discriminate.
Qed.

(** ** Host parsing *)

Lemma split_go_nil s cur :
  split_go s cur = [] -> cur = [] /\ forallb is_py_space (list_ascii_of_string s) = true.
Proof.
  revert cur. induction s as [|c s IH]; intros cur H; simpl in H.
  - destruct cur; [auto|discriminate].
  - destruct (is_py_space c) eqn:Hc.
    + destruct cur; [|discriminate]. destruct (IH [] H) as [_ Hs].
      split; [reflexivity|]. simpl. rewrite Hc. exact Hs.
    + destruct (IH (c :: cur) H). discriminate.
Qed.

Lemma drop_spaces_all l : forallb is_py_space l = true -> drop_spaces l = [].
Proof.
  induction l as [|c l IH]; simpl; [reflexivity|].
  destruct (is_py_space c); simpl; [exact IH|discriminate].
Qed.

Lemma py_split_nil s : py_split s = [] -> py_strip s = "".
Proof.
  intros H. destruct (split_go_nil s [] H) as [_ Hs].
  unfold py_strip. rewrite (drop_spaces_all _ Hs). reflexivity.
Qed.

Lemma parse_hosts_nonempty src h : In h (parse_hosts src) -> h <> [].
Proof.
  destruct src as [hn alts|lines]; simpl.
  - intros [<-|[]]. discriminate.
  - intros Hin. apply in_map_iff in Hin. destruct Hin as (l & <- & Hl).
    apply filter_In in Hl. destruct Hl as [_ Hl].
    intros Hnil. apply py_split_nil in Hnil. rewrite Hnil in Hl. discriminate.
Qed.


(** C7 (amended).  When [set(hosts)] enumerates each distinct tuple once, a
    tuple listed two or more times gets at most one CSR and at most one
    enrollment request; it gets exactly one of each when the run completes
    (exit status 0).  An exception that ends the batch earlier (raised by
    the CSR building or the submission of another tuple) can leave it with
    no CSR or no request. *)
Theorem main_identical_tuples_at_most_one (login : string) (collect : jval -> nat -> attempt)
  (enroll : payload -> post_response) (certdir : string) (io : local_io) (subject_of : csr -> string)
  (set_order : list host -> list host)
  (Hset : forall hs, NoDup (set_order hs) /\ forall h, In h (set_order hs) <-> In h hs)
  (src : host_source) (cn : string) (sans : list string)
  (Hdup : 2 <= count_occ (list_eq_dec string_dec) (parse_hosts src) (cn :: sans)) :
  let r := main_run login collect enroll certdir io subject_of set_order src in
  count_events (is_newcsr_of (Csr cn certdir sans)) (fst r) <= 1
  /\ count_events (is_post_of (Csr cn certdir sans)) (fst r) <= 1
  /\ (snd r = 0 ->
      count_events (is_newcsr_of (Csr cn certdir sans)) (fst r) = 1
      /\ count_events (is_post_of (Csr cn certdir sans)) (fst r) = 1).
Proof.
  intros r. set (c := Csr cn certdir sans).
  set (hs := set_order (parse_hosts src)).
  destruct (Hset (parse_hosts src)) as [Hnd Hin].
  assert (Hne : forall h, In h hs -> h <> []).
  { intros h Hh. apply (parse_hosts_nonempty src). apply Hin. exact Hh. }
  assert (Hcs : count_occ csr_eq_dec (map (mk_csr certdir) hs) c = 1).
  { apply NoDup_count_occ'.
    - apply NoDup_map_NoDup_ForallPairs; [|exact Hnd].
      intros x y Hx Hy Hxy.
      destruct x as [|a x]; [exfalso; exact (Hne [] Hx eq_refl)|].
      destruct y as [|b y]; [exfalso; exact (Hne [] Hy eq_refl)|].
      simpl in Hxy. inversion Hxy. reflexivity.
    - apply in_map_iff. exists (cn :: sans). split; [reflexivity|].
      apply Hin. apply (count_occ_In (list_eq_dec string_dec)). lia. }
  assert (Hret : forall c0 e, retrieval_phase_event e ->
                 is_newcsr_of c0 e = false /\ is_post_of c0 e = false).
  { intros c0 e [He|[[p ->]|[p [b ->]]]]; [destruct e; try discriminate|..];
      split; reflexivity. }
  destruct (build_csrs_count certdir io hs c Hne) as [HB1 HB2].
  assert (HBpost : count_events (is_post_of c) (fst (build_csrs certdir io hs)) = 0).
  { apply count_events_zero. intros e He.
    destruct (build_csrs_events certdir io hs e He) as [c' ->]. reflexivity. }
  assert (HSnew : forall cs,
            count_events (is_newcsr_of c) (fst (submit_all login enroll io subject_of cs)) = 0).
  { intros cs. apply count_events_zero. intros e He.
    destruct (submit_all_events login enroll io subject_of cs e He) as (c' & _ & [-> | ->]);
      reflexivity. }
  assert (Enew := main_run_count_early login collect enroll certdir io subject_of set_order
                    (is_newcsr_of c) src (fun e He => proj1 (Hret c e He))
                    (fun _ => eq_refl) (fun _ => eq_refl) (fun _ => eq_refl)).
  assert (Epost := main_run_count_early login collect enroll certdir io subject_of set_order
                    (is_post_of c) src (fun e He => proj2 (Hret c e He))
                    (fun _ => eq_refl) (fun _ => eq_refl) (fun _ => eq_refl)).
  fold hs in Enew, Epost. unfold r. rewrite Enew, Epost, HBpost.
  destruct (snd (build_csrs certdir io hs)) as [cs|e] eqn:EB.
  - destruct (HB2 cs eq_refl) as [Hcs' Hfst].
    destruct (submit_all_post_count login enroll io subject_of cs c) as [HS1 HS2].
    rewrite HSnew. subst cs. split; [lia|]. split; [lia|].
    intros H0. destruct (main_run_exit_0 login collect enroll certdir io subject_of set_order
                           src H0) as (cs0 & rq & EB0 & ES0).
    fold hs in EB0. rewrite EB in EB0. injection EB0 as <-.
    rewrite Hfst, count_newcsr. rewrite (HS2 rq ES0). lia.
  - split; [lia|]. split; [lia|].
    intros H0. destruct (main_run_exit_0 login collect enroll certdir io subject_of set_order
                           src H0) as (cs0 & rq & EB0 & ES0).
    fold hs in EB0. rewrite EB in EB0. discriminate.
Qed.

(** ** Scenarios run end to end *)

Lemma get_sslId_missing d :
  (forall x, ~ In ("sslId", x) d) -> get_sslId (JDict d) = raise (KeyError "sslId").
Proof.
  intros H. unfold get_sslId.
  destruct (find (fun kv => String.eqb (fst kv) "sslId") (rev d)) as [[k x]|] eqn:F;
    [|reflexivity].
  apply find_some in F. destruct F as [Hin Hk]. simpl in Hk.
  apply String.eqb_eq in Hk. subst k. rewrite <- in_rev in Hin. exfalso. exact (H x Hin).
Qed.

(** C2 (counterexample).  Two hosts; the enrollment endpoint answers 200
    with a body that has no [sslId].  The run exits with status 1 after
    reporting the missing key, and the second host is never submitted. *)
Lemma main_missing_sslId_counterexample :
  let run := main_run ex_login ex_collect_pending ex_enroll_no_id ex_certdir ex_io ex_subject
               ex_set_order ex_two_hosts in
  snd run = 1
  /\ last (fst run) EClose = EKeyNotFound "sslId"
  /\ count_events (is_post_of (Csr "b.example.org" ex_certdir [])) (fst run) = 0.
Proof. vm_compute. split; [|split]; reflexivity. Qed.

(** C2 (amended).  A 200 answer whose decoded body is a dict without
    [sslId] makes [submit_request] raise [KeyError 'sslId']; main catches it,
    prints 'Key ... not found' and exits with status 1: the submission of
    that CSR is the last thing the batch does, so no later CSR is submitted
    and nothing is retrieved. *)
Theorem main_missing_sslId_aborts (login : string) (collect : jval -> nat -> attempt)
  (enroll : payload -> post_response) (certdir : string) (io : local_io) (subject_of : csr -> string)
  (set_order : list host -> list host) (src : host_source) (c : csr)
  (d : list (string * jval))
  (Hresp : enroll (build_payload CONFIG (subject_of c) c (altnames c)) =
           PostResp 200 (Some (JDict d)))
  (Hno : forall x, ~ In ("sslId", x) d)
  (Hposted : In (post_of login subject_of c)
               (fst (main_run login collect enroll certdir io subject_of set_order src))) :
  let run := main_run login collect enroll certdir io subject_of set_order src in
  snd (submit_request login enroll CONFIG (subject_of c) c (altnames c)) =
    Exc (KeyError "sslId")
  /\ snd run = 1
  /\ exists pre, fst run = pre ++ [post_of login subject_of c; EKeyNotFound "sslId"].
Proof.
  intros run.
  assert (Hs : snd (submit_request login enroll CONFIG (subject_of c) c (altnames c)) =
               Exc (KeyError "sslId")).
  { unfold submit_request. cbv zeta. rewrite snd_bind. cbn [tell snd]. rewrite Hresp.
    cbn [Z.eqb]. rewrite get_sslId_missing by exact Hno. reflexivity. }
  split; [exact Hs|].
  apply main_run_submit_phase in Hposted; [|reflexivity].
  destruct (snd (build_csrs certdir io (set_order (parse_hosts src)))) as [cs|e] eqn:HB;
    [|destruct Hposted].
  destruct (submit_all_abort login enroll io subject_of cs c _ Hposted Hs) as (pre & H1 & H2).
  pose proof (main_batch_fst login collect enroll certdir io subject_of set_order
                (parse_hosts src)) as HF.
  pose proof (main_batch_snd login collect enroll certdir io subject_of set_order
                (parse_hosts src)) as HS.
  cbv zeta in HF, HS. rewrite HB in HF, HS. rewrite H2 in HF, HS.
  unfold run, main_run.
  destruct (main_batch login collect enroll certdir io subject_of set_order (parse_hosts src))
    as [t r]. cbn [fst snd] in HF, HS. subst r t.
  split; [reflexivity|].
  exists (fst (build_csrs certdir io (set_order (parse_hosts src))) ++ pre).
  rewrite H1, app_nil_r, <- !app_assoc. reflexivity.
Qed.

Lemma main_missing_sslId_aborts_witness :
  let c := Csr "a.example.org" ex_certdir [] in
  let run := main_run ex_login ex_collect_pending ex_enroll_no_id ex_certdir ex_io ex_subject
               ex_set_order ex_two_hosts in
  snd (submit_request ex_login ex_enroll_no_id CONFIG (ex_subject c) c (altnames c)) =
    Exc (KeyError "sslId")
  /\ snd run = 1
  /\ exists pre, fst run = pre ++ [post_of ex_login ex_subject c; EKeyNotFound "sslId"].
Proof.
  intros c run.
  apply (main_missing_sslId_aborts ex_login ex_collect_pending ex_enroll_no_id ex_certdir ex_io
           ex_subject ex_set_order ex_two_hosts c [("status", JStr "pending")]).
  - reflexivity.
  - intros x [H|[]]. discriminate.
  - vm_compute. repeat first [left; reflexivity | right].
Defined.

(** C3 (code bug).  Two hosts both get a tracking id; the retrieval of the
    first exhausts its budget, the second returns its certificate.  One
    certificate file is written, yet the last summary line reports two
    certificates 'requested and retrieved successfully': main prints
    [len(requests)], the number of tracking ids. *)
Theorem main_summary_counts_tickets :
  let run := main_run ex_login ex_collect_by_id ex_enroll_ids ex_certdir ex_io ex_subject
               ex_set_order ex_two_hosts in
  snd run = 0
  /\ count_events is_write_key (fst run) = 2
  /\ count_events is_write_cert (fst run) = 1
  /\ last (fst run) EClose = ERetrievedOk 2.
Proof. vm_compute. repeat split. Qed.

(** ** Host tuples as given *)

Lemma split_go_word w rest cur :
  forallb (fun c => negb (is_py_space c)) (list_ascii_of_string w) = true ->
  split_go (String.append w rest) cur = split_go rest (rev (list_ascii_of_string w) ++ cur).
Proof.
  revert cur. induction w as [|c w IH]; intros cur Hw; [reflexivity|].
  simpl in Hw |- *. destruct (is_py_space c); [discriminate|]. simpl in Hw.
  rewrite IH by exact Hw. rewrite <- app_assoc. reflexivity.
Qed.

Lemma word_rev_nonempty w : is_word w = true -> rev (list_ascii_of_string w) <> [].
Proof.
  unfold is_word. destruct w as [|c w]; [discriminate|].
  intros _ H. simpl in H. apply app_eq_nil in H. destruct H as [_ H]. discriminate.
Qed.

Lemma string_of_rev_rev w :
  string_of_list_ascii (rev (rev (list_ascii_of_string w))) = w.
Proof. rewrite rev_involutive. apply string_of_list_ascii_of_string. Qed.

(** C6 (counterexample).  A host-file line that repeats an alternative name
    gives a tuple whose alt-names keep the duplicate. *)
Lemma parse_hosts_duplicate_alt_names_counterexample :
  parse_hosts (FromFile ["a.example.org b.example.org b.example.org"]) =
    [["a.example.org"; "b.example.org"; "b.example.org"]]
  /\ ~ (forall h, In h (parse_hosts (FromFile ["a.example.org b.example.org b.example.org"])) ->
         NoDup (host_sans h)).
Proof.
  assert (E : parse_hosts (FromFile ["a.example.org b.example.org b.example.org"]) =
              [["a.example.org"; "b.example.org"; "b.example.org"]]) by (vm_compute; reflexivity).
  split; [exact E|]. rewrite E. intros H.
  specialize (H _ (or_introl eq_refl)). simpl in H.
  inversion H as [|x l Hx Hl]. apply Hx. left. reflexivity.
Qed.

(** ** Witnesses *)

Lemma retrieve_cert_pending_then_success_witness :
  retrieve_cert ex_login ex_collect_fourth CONFIG (JNum 7) =
    (retries ex_login CONFIG (JNum 7) 3 ++
       [EConnect; retrieve_get ex_login CONFIG (JNum 7); EClose], Ok (Some "CERT"))
  /\ count_events is_get (fst (retrieve_cert ex_login ex_collect_fourth CONFIG (JNum 7))) = 4
  /\ count_events is_sleep (fst (retrieve_cert ex_login ex_collect_fourth CONFIG (JNum 7))) = 3
  /\ retrieve_cert ex_login ex_collect_pending CONFIG (JNum 7) =
       (retries ex_login CONFIG (JNum 7) MAX_RETRY_RETRIEVAL, Ok None).
Proof.
  apply (retrieve_cert_pending_then_success ex_login ex_collect_fourth ex_collect_pending
           (JNum 7) "CERT"); try reflexivity.
Defined.

Lemma retrieve_cert_fatal_propagates_witness :
  retrieve_cert ex_login ex_collect_reset CONFIG (JNum 7) =
    (retries ex_login CONFIG (JNum 7) 2 ++
       [EConnect; retrieve_get ex_login CONFIG (JNum 7)], Exc SocketError)
  /\ count_events is_get (fst (retrieve_cert ex_login ex_collect_reset CONFIG (JNum 7))) = 3
  /\ count_events is_sleep (fst (retrieve_cert ex_login ex_collect_reset CONFIG (JNum 7))) = 2.
Proof.
  apply (retrieve_cert_fatal_propagates ex_login ex_collect_reset (JNum 7) 2 SocketError).
  - unfold MAX_RETRY_RETRIEVAL. lia.
  - intros j Hj. destruct j as [|[|j]]; [reflexivity|reflexivity|lia].
  - reflexivity.
  - discriminate.
Defined.


(** C7 (counterexample).  The host file lists [b.example.org] once and
    [a.example.org] twice; [set(hosts)] enumerates [b] first.  The
    submission of [b] gets a 200 without [sslId] and ends the batch: the
    duplicated tuple gets its CSR but no enrollment request. *)
Lemma main_identical_tuples_counterexample :
  let run := main_run ex_login ex_collect_pending ex_enroll_no_id ex_certdir ex_io ex_subject
               ex_set_order ex_dup_after_other in
  (forall hs, NoDup (ex_set_order hs) /\ forall h, In h (ex_set_order hs) <-> In h hs)
  /\ count_occ (list_eq_dec string_dec) (parse_hosts ex_dup_after_other) ["a.example.org"] = 2
  /\ count_events (is_newcsr_of (Csr "a.example.org" ex_certdir [])) (fst run) = 1
  /\ count_events (is_post_of (Csr "a.example.org" ex_certdir [])) (fst run) = 0
  /\ snd run = 1.
Proof.
  split; [intros hs; split; [apply NoDup_nodup|intros h; apply nodup_In]|].
  vm_compute. repeat split.
Qed.

Lemma main_identical_tuples_at_most_one_witness :
  let r := main_run ex_login ex_collect_pending ex_enroll_refused ex_certdir ex_io ex_subject
             ex_set_order (FromFile ["a.example.org"; "b.example.org"; " a.example.org "]) in
  count_events (is_newcsr_of (Csr "a.example.org" ex_certdir [])) (fst r) <= 1
  /\ count_events (is_post_of (Csr "a.example.org" ex_certdir [])) (fst r) <= 1
  /\ (snd r = 0 ->
      count_events (is_newcsr_of (Csr "a.example.org" ex_certdir [])) (fst r) = 1
      /\ count_events (is_post_of (Csr "a.example.org" ex_certdir [])) (fst r) = 1).
Proof.
  apply (main_identical_tuples_at_most_one ex_login ex_collect_pending ex_enroll_refused
           ex_certdir ex_io ex_subject ex_set_order).
  - intros hs. split; [apply NoDup_nodup|]. intros h. apply nodup_In.
  - vm_compute. lia.
Defined.

(** ** Further properties of retrieve_cert *)

Lemma retries_S login cfg sslId k :
  retries login cfg sslId (S k) = retry_block login cfg sslId ++ retries login cfg sslId k.
Proof. reflexivity. Qed.

(** Every run of the retrieval loop: all [fuel] attempts retried, or [k]
    retries then a 200, or [k] retries then a fatal exception. *)
Lemma retrieve_loop_outcome login collect cfg sslId i fuel :
  (retrieve_loop login collect cfg sslId i fuel = (retries login cfg sslId fuel, Ok None)
   /\ forall j, j < fuel -> is_retry (collect sslId (i + j)) = true)
  \/ (exists k body, k < fuel
      /\ (forall j, j < k -> is_retry (collect sslId (i + j)) = true)
      /\ collect sslId (i + k) = AResp 200 body
      /\ retrieve_loop login collect cfg sslId i fuel =
         (retries login cfg sslId k ++ [EConnect; retrieve_get login cfg sslId; EClose],
          Ok (Some body)))
  \/ (exists k e, k < fuel
      /\ (forall j, j < k -> is_retry (collect sslId (i + j)) = true)
      /\ collect sslId (i + k) = ARaise e /\ e <> BadStatusLine
      /\ retrieve_loop login collect cfg sslId i fuel =
         (retries login cfg sslId k ++ [EConnect; retrieve_get login cfg sslId], Exc e)).
Proof.
  revert i. induction fuel as [|fuel IH]; intros i.
  - left. split; [reflexivity|]. intros j Hj; lia.
  - destruct (is_retry (collect sslId i)) eqn:Hr.
    + rewrite (retrieve_loop_retry login collect cfg sslId i fuel Hr).
      destruct (IH (S i)) as [[E Hall]|[(k & b & Hk & Hpre & Hc & E)|(k & e & Hk & Hpre & Hc & He & E)]];
        rewrite E; cbn [fst snd].
      * left. split; [reflexivity|].
        intros [|j] Hj; [now rewrite Nat.add_0_r|].
        replace (i + S j) with (S i + j) by lia. apply Hall. lia.
      * right; left. exists (S k), b. split; [lia|]. split.
        { intros [|j] Hj; [now rewrite Nat.add_0_r|].
          replace (i + S j) with (S i + j) by lia. apply Hpre. lia. }
        split; [now replace (i + S k) with (S i + k) by lia|].
        now rewrite retries_S, app_assoc.
      * right; right. exists (S k), e. split; [lia|]. split.
        { intros [|j] Hj; [now rewrite Nat.add_0_r|].
          replace (i + S j) with (S i + j) by lia. apply Hpre. lia. }
        split; [now replace (i + S k) with (S i + k) by lia|]. split; [exact He|].
        now rewrite retries_S, app_assoc.
    + unfold is_retry in Hr. destruct (collect sslId i) as [e|st b] eqn:Hc.
      * right; right. exists 0, e.
        assert (He : e <> BadStatusLine) by (intros ->; discriminate).
        split; [lia|]. split; [intros j Hj; lia|]. rewrite Nat.add_0_r.
        split; [exact Hc|]. split; [exact He|].
        exact (retrieve_loop_fatal login collect cfg sslId i fuel e Hc He).
      * apply negb_false_iff, Z.eqb_eq in Hr. subst st.
        right; left. exists 0, b.
        split; [lia|]. split; [intros j Hj; lia|]. rewrite Nat.add_0_r.
        split; [exact Hc|].
        exact (retrieve_loop_success login collect cfg sslId i fuel b Hc).
Qed.

(** retrieve_cert has three outcomes: all [MAX_RETRY_RETRIEVAL] answers
    were retried and it returns [None]; or the first [k] were retried and
    the next one was a 200, whose body it returns after closing; or the
    first [k] were retried and the next raised an exception other than
    [BadStatusLine], which it re-raises.  It never raises [BadStatusLine]. *)
Theorem retrieve_cert_outcome (login : string) (collect : jval -> nat -> attempt)
  (sslId : jval) :
  let r := retrieve_cert login collect CONFIG sslId in
  (r = (retries login CONFIG sslId MAX_RETRY_RETRIEVAL, Ok None)
   /\ forall j, j < MAX_RETRY_RETRIEVAL -> is_retry (collect sslId j) = true)
  \/ (exists k body, k < MAX_RETRY_RETRIEVAL
      /\ (forall j, j < k -> is_retry (collect sslId j) = true)
      /\ collect sslId k = AResp 200 body
      /\ r = (retries login CONFIG sslId k ++
                [EConnect; retrieve_get login CONFIG sslId; EClose], Ok (Some body)))
  \/ (exists k e, k < MAX_RETRY_RETRIEVAL
      /\ (forall j, j < k -> is_retry (collect sslId j) = true)
      /\ collect sslId k = ARaise e /\ e <> BadStatusLine
      /\ r = (retries login CONFIG sslId k ++
                [EConnect; retrieve_get login CONFIG sslId], Exc e)).
Proof. exact (retrieve_loop_outcome login collect CONFIG sslId 0 MAX_RETRY_RETRIEVAL). Qed.

(** retrieve_cert queries at most [MAX_RETRY_RETRIEVAL] times; every sleep
    is [WAIT_RETRIEVAL] seconds and follows a query: one sleep per query
    except after the last one, unless the budget ran out (then one per query). *)
Theorem retrieve_cert_query_budget (login : string) (collect : jval -> nat -> attempt)
  (sslId : jval) :
  let r := retrieve_cert login collect CONFIG sslId in
  count_events is_get (fst r) <= MAX_RETRY_RETRIEVAL
  /\ count_events is_sleep (fst r) + (match snd r with Ok None => 0 | _ => 1 end) =
     count_events is_get (fst r)
  /\ (forall n, In (ESleep n) (fst r) -> n = WAIT_RETRIEVAL).
Proof.
  intros r.
  assert (Hs : forall k n, In (ESleep n) (retries login CONFIG sslId k) -> n = WAIT_RETRIEVAL).
  { induction k as [|k IH]; intros n H; [destruct H|].
    rewrite retries_S in H. apply in_app_or in H. destruct H as [H|H]; [|exact (IH n H)].
    simpl in H. destruct H as [H|[H|[H|[H|[H|[]]]]]]; inversion H; reflexivity. }
  assert (Hg : count_events is_get (retry_block login CONFIG sslId) = 1) by reflexivity.
  assert (Hl : count_events is_sleep (retry_block login CONFIG sslId) = 1) by reflexivity.
  destruct (retrieve_cert_outcome login collect sslId)
    as [[E _]|[(k & b & Hk & _ & _ & E)|(k & e & Hk & _ & _ & _ & E)]];
    fold r in E; rewrite E; cbn [fst snd]; (split; [|split]).
  - rewrite count_events_retries, Hg. lia.
  - rewrite !count_events_retries, Hg, Hl. lia.
  - exact (Hs _).
  - rewrite count_events_app, count_events_retries, Hg.
    cbn [count_events filter is_get length retrieve_get]. unfold MAX_RETRY_RETRIEVAL in *. lia.
  - rewrite !count_events_app, !count_events_retries, Hg, Hl.
    cbn [count_events filter is_get is_sleep length retrieve_get]. lia.
  - intros n H. apply in_app_or in H. destruct H as [H|H]; [exact (Hs _ _ H)|].
    simpl in H. destruct H as [H|[H|[H|[]]]]; discriminate.
  - rewrite count_events_app, count_events_retries, Hg.
    cbn [count_events filter is_get length retrieve_get]. unfold MAX_RETRY_RETRIEVAL in *. lia.
  - rewrite !count_events_app, !count_events_retries, Hg, Hl.
    cbn [count_events filter is_get is_sleep length retrieve_get]. lia.
  - intros n H. apply in_app_or in H. destruct H as [H|H]; [exact (Hs _ _ H)|].
    simpl in H. destruct H as [H|[H|[]]]; discriminate.
Qed.

(** Every client retrieve_cert creates is closed when it returns, with or
    without a certificate; when it raises, the client of the failing
    attempt is left open. *)
Theorem retrieve_cert_connections_closed (login : string)
  (collect : jval -> nat -> attempt) (sslId : jval) :
  let r := retrieve_cert login collect CONFIG sslId in
  count_events is_connect (fst r) =
  count_events is_close (fst r) + (match snd r with Exc _ => 1 | Ok _ => 0 end).
Proof.
  intros r.
  assert (Hc : count_events is_connect (retry_block login CONFIG sslId) = 1) by reflexivity.
  assert (Hl : count_events is_close (retry_block login CONFIG sslId) = 1) by reflexivity.
  destruct (retrieve_cert_outcome login collect sslId)
    as [[E _]|[(k & b & Hk & _ & _ & E)|(k & e & Hk & _ & _ & _ & E)]];
    fold r in E; rewrite E; cbn [fst snd];
    rewrite ?count_events_app, !count_events_retries, Hc, Hl;
    cbn [count_events filter is_connect is_close length retrieve_get]; lia.
Qed.

(** ** Further properties of submit_request *)

Lemma find_rev_last (key : string) (d : list (string * jval)) (kv : string * jval) :
  find (fun kv => String.eqb (fst kv) key) (rev d) = Some kv <->
  exists pre post, d = pre ++ kv :: post /\ fst kv = key
                   /\ forall k x, In (k, x) post -> k <> key.
Proof.
  revert kv. induction d as [|y d IH] using rev_ind; intros kv.
  - split; [discriminate|]. intros (pre & post & H & _). destruct pre; discriminate.
  - rewrite rev_app_distr. cbn [rev app find].
    destruct (String.eqb (fst y) key) eqn:Hy.
    + apply String.eqb_eq in Hy. split.
      * intros H. injection H as <-. exists d, []. split; [reflexivity|].
        split; [exact Hy|]. intros k x [].
      * intros (pre & post & Hd & Hk & Hpost). f_equal.
        destruct post as [|z post] using rev_ind.
        -- apply app_inj_tail in Hd. destruct Hd as [_ Hd]. exact Hd.
        -- rewrite app_comm_cons, app_assoc in Hd. apply app_inj_tail in Hd.
           destruct Hd as [_ ->]. exfalso. destruct z as [k x].
           apply (Hpost k x); [apply in_or_app; right; left; reflexivity|exact Hy].
    + apply String.eqb_neq in Hy. rewrite IH. split.
      * intros (pre & post & Hd & Hk & Hpost). exists pre, (post ++ [y]).
        split; [rewrite Hd, <- app_assoc; reflexivity|]. split; [exact Hk|].
        intros k x Hin. apply in_app_or in Hin. destruct Hin as [Hin|[Hin|[]]];
          [exact (Hpost k x Hin)|subst y; exact Hy].
      * intros (pre & post & Hd & Hk & Hpost).
        destruct post as [|z post] using rev_ind.
        -- apply app_inj_tail in Hd. destruct Hd as [_ Hd]. subst kv. contradiction.
        -- rewrite app_comm_cons, app_assoc in Hd. apply app_inj_tail in Hd.
           destruct Hd as [Hd ->]. exists pre, post. split; [exact Hd|]. split; [exact Hk|].
           intros k x Hin. apply (Hpost k x). apply in_or_app. left. exact Hin.
Qed.

Lemma submit_request_snd login enroll cfg hostname c sans :
  snd (submit_request login enroll cfg hostname c sans) =
  match enroll (build_payload cfg hostname c sans) with
  | PostRaise e => Exc e
  | PostResp status body =>
      if Z.eqb status 200 then
        match body with
        | None => Exc ValueError
        | Some (JDict d) =>
            match find (fun kv => String.eqb (fst kv) "sslId") (rev d) with
            | Some (_, x) => Ok (py_of_json x)
            | None => Exc (KeyError "sslId")
            end
        | Some _ => Exc TypeError
        end
      else Ok None
  end.
Proof.
  unfold submit_request. cbv zeta. rewrite snd_bind. cbn [tell snd].
  destruct (enroll _) as [e|st body]; [reflexivity|].
  destruct (Z.eqb st 200); [|reflexivity].
  destruct body as [v|]; [|reflexivity].
  rewrite snd_bind. unfold get_sslId.
  destruct v; try reflexivity.
  destruct (find _ (rev d)) as [[k x]|]; reflexivity.
Qed.

(** What submit_request returns, read off the enrollment answer: [None]
    exactly on a non-200 status or on a 200 whose JSON object has [null]
    as its last [sslId] entry; a value [v] exactly on a 200 whose JSON
    object has [v], not [null], as its last [sslId] entry; otherwise the
    exception of the POST, [ValueError] for a body that is not JSON,
    [KeyError 'sslId'] for an object without the key, [TypeError] for
    JSON that is not an object. *)
Theorem submit_request_outcome (login : string) (enroll : payload -> post_response)
  (hostname : string) (c : csr) (sans : list string) :
  let a := enroll (build_payload CONFIG hostname c sans) in
  let r := snd (submit_request login enroll CONFIG hostname c sans) in
  (r = Ok None <->
     (exists st body, a = PostResp st body /\ st <> 200%Z)
     \/ (exists d pre post, a = PostResp 200 (Some (JDict d))
           /\ d = pre ++ ("sslId", JNull) :: post
           /\ forall k x, In (k, x) post -> k <> "sslId"))
  /\ (forall v, r = Ok (Some v) <->
        v <> JNull
        /\ exists d pre post, a = PostResp 200 (Some (JDict d))
             /\ d = pre ++ ("sslId", v) :: post /\ forall k x, In (k, x) post -> k <> "sslId")
  /\ (forall e, r = Exc e <->
        a = PostRaise e
        \/ (a = PostResp 200 None /\ e = ValueError)
        \/ (exists d, a = PostResp 200 (Some (JDict d))
                      /\ (forall x, ~ In ("sslId", x) d) /\ e = KeyError "sslId")
        \/ (exists v, a = PostResp 200 (Some v) /\ (forall d, v <> JDict d) /\ e = TypeError)).
Proof.
  intros a r. unfold r. rewrite submit_request_snd. fold a.
  destruct a as [e0|st body].
  - split; [split; [discriminate|intros [(st & b & H & _)|(d & pre & post & H & _)];
                                  discriminate]|].
    split; [intros v; split; [discriminate|intros (_ & d & pre & post & H & _); discriminate]|].
    intros e. split.
    + intros H. injection H as <-. left. reflexivity.
    + intros [H|[[H _]|[(d & H & _)|(v & H & _)]]]; try discriminate.
      injection H as <-. reflexivity.
  - destruct (Z.eqb st 200) eqn:Est.
    + apply Z.eqb_eq in Est. subst st.
      assert (Hno : forall st b, PostResp 200 body = PostResp st b -> st <> 200%Z -> False)
        by (intros st b H Hst; injection H as <- _; apply Hst; reflexivity).
      destruct body as [v|].
      * destruct v as [|b|z|s|l|d];
          try (split; [split; [discriminate|intros [(st & b0 & H & Hst)|(d & pre & post & H & _)];
                                 [destruct (Hno st b0 H Hst)|discriminate]]|];
               split; [intros w; split; [discriminate|intros (_ & d & pre & post & H & _);
                                                      discriminate]|];
               intros e; split;
               [intros H; injection H as <-; right; right; right; eexists; split; [reflexivity|];
                split; [intros d' H'; discriminate|reflexivity]
               |intros [H|[[H _]|[(d & H & _)|(w & H & Hw & ->)]]]; try discriminate;
                reflexivity]).
        destruct (find (fun kv => String.eqb (fst kv) "sslId") (rev d)) as [[k x]|] eqn:F.
        -- pose proof F as F'. apply find_rev_last in F'.
           destruct F' as (pre & post & Hd & Hk & Hpost). cbn [fst] in Hk. subst k.
           assert (Hlast : forall w pre' post', d = pre' ++ ("sslId", w) :: post' ->
                             (forall k y, In (k, y) post' -> k <> "sslId") -> w = x).
           { intros w pre' post' Hd' Hp'.
             assert (F2 : find (fun kv => String.eqb (fst kv) "sslId") (rev d) =
                          Some ("sslId", w)) by (apply find_rev_last; exists pre', post'; auto).
             rewrite F in F2. injection F2 as <-. reflexivity. }
           split; [|split].
           ++ split.
              ** intros H. right. exists d, pre, post.
                 destruct x; try discriminate. auto.
              ** intros [(st & b0 & H & Hst)|(d' & pre' & post' & H & Hd' & Hp')];
                   [destruct (Hno st b0 H Hst)|].
                 injection H as <-. rewrite <- (Hlast JNull pre' post' Hd' Hp'). reflexivity.
           ++ intros w. split.
              ** intros H. destruct x; try discriminate; injection H as <-;
                   (split; [discriminate|exists d, pre, post; auto]).
              ** intros (Hw & d' & pre' & post' & H & Hd' & Hp'). injection H as <-.
                 rewrite <- (Hlast w pre' post' Hd' Hp').
                 destruct w; [contradiction|reflexivity..].
           ++ intros e. split; [discriminate|].
              intros [H|[[H _]|[(d' & H & Hn & _)|(w & H & Hw & _)]]]; try discriminate.
              ** injection H as <-. exfalso. apply (Hn x). rewrite Hd.
                 apply in_or_app. right. left. reflexivity.
              ** injection H as <-. exfalso. exact (Hw d eq_refl).
        -- assert (Hn : forall x, ~ In ("sslId", x) d).
           { intros x Hin. rewrite in_rev in Hin.
             pose proof (find_none _ _ F _ Hin) as Hf. cbn in Hf. discriminate. }
           split.
           { split; [discriminate|].
             intros [(st & b0 & H & Hst)|(d' & pre & post & H & Hd & _)];
               [destruct (Hno st b0 H Hst)|].
             injection H as <-. exfalso.
             apply (Hn JNull). rewrite Hd. apply in_or_app. right. left. reflexivity. }
           split.
           ++ intros w. split; [discriminate|].
              intros (_ & d' & pre & post & H & Hd & _). injection H as <-. exfalso.
              apply (Hn w). rewrite Hd. apply in_or_app. right. left. reflexivity.
           ++ intros e. split.
              ** intros H. injection H as <-. right; right; left. exists d. auto.
              ** intros [H|[[H _]|[(d' & H & _ & ->)|(w & H & Hw & _)]]]; try discriminate.
                 --- reflexivity.
                 --- injection H as <-. exfalso. exact (Hw d eq_refl).
      * split; [split; [discriminate|intros [(st & b0 & H & Hst)|(d & pre & post & H & _)];
                          [destruct (Hno st b0 H Hst)|discriminate]]|].
        split; [intros w; split; [discriminate|intros (_ & d & pre & post & H & _);
                                               discriminate]|].
        intros e. split.
        -- intros H. injection H as <-. right; left. auto.
        -- intros [H|[[_ ->]|[(d & H & _)|(w & H & _)]]]; try discriminate. reflexivity.
    + apply Z.eqb_neq in Est.
      split; [split; [intros _; left; exists st, body; auto|reflexivity]|].
      split; [intros w; split; [discriminate|intros (_ & d & pre & post & H & _);
                                injection H as -> _; contradiction]|].
      intros e. split; [discriminate|].
      intros [H|[[H _]|[(d & H & _)|(w & H & _)]]]; try discriminate;
        injection H as -> _; contradiction.
Qed.

(** ** Further properties of the submission loop *)

(** When no submission raises and no key write raises, main posts the
    CSRs in order, writes each key right after the POST that gave it a
    ticket, and keeps the tickets with their subjects in the order of the
    CSRs. *)
Theorem submit_all_in_order (login : string) (enroll : payload -> post_response)
  (io : local_io) (subject_of : csr -> string) (cs : list csr)
  (Hok : forall c, In c cs -> exists r,
     snd (submit_request login enroll CONFIG (subject_of c) c (altnames c)) = Ok r)
  (Hkey : forall c, In c cs -> write_pkey_error io c = None) :
  submit_all login enroll io subject_of cs =
  (flat_map (fun c => post_of login subject_of c ::
               match ticket_of login enroll subject_of c with
               | Some _ => [EWriteKey c]
               | None => []
               end) cs,
   Ok (flat_map (fun c => match ticket_of login enroll subject_of c with
                          | Some v => [(v, subject_of c)]
                          | None => []
                          end) cs)).
Proof.
  induction cs as [|c cs IH]; [reflexivity|].
  rewrite (surjective_pairing (submit_all login enroll io subject_of (c :: cs))).
  rewrite submit_all_cons_fst, submit_all_cons_snd.
  rewrite IH by (intros c' Hc'; first [apply Hok|apply Hkey]; right; exact Hc').
  cbn [fst snd flat_map]. rewrite (Hkey c (or_introl eq_refl)).
  destruct (Hok c (or_introl eq_refl)) as [r Hr]. unfold ticket_of. rewrite Hr.
  destruct r as [v|]; [destruct (truthy v)|]; reflexivity.
Qed.

Lemma submit_all_in_order_witness :
  let cs := [Csr "a.example.org" ex_certdir []; Csr "b.example.org" ex_certdir ["c.example.org"]] in
  submit_all ex_login ex_enroll_ids ex_io ex_subject cs =
  (flat_map (fun c => post_of ex_login ex_subject c ::
               match ticket_of ex_login ex_enroll_ids ex_subject c with
               | Some _ => [EWriteKey c]
               | None => []
               end) cs,
   Ok (flat_map (fun c => match ticket_of ex_login ex_enroll_ids ex_subject c with
                          | Some v => [(v, ex_subject c)]
                          | None => []
                          end) cs)).
Proof.
  intros cs. apply submit_all_in_order.
  - intros c [<-|[<-|[]]]; eexists; reflexivity.
  - intros c _. reflexivity.
Defined.

Lemma submit_all_key_count login enroll io subject_of cs rq :
  snd (submit_all login enroll io subject_of cs) = Ok rq ->
  count_events is_write_key (fst (submit_all login enroll io subject_of cs)) = length rq.
Proof.
  revert rq. induction cs as [|c cs IH]; intros rq H.
  - injection H as <-. reflexivity.
  - rewrite submit_all_cons_snd in H. rewrite submit_all_cons_fst.
    unfold count_events in *. cbn [filter is_write_key post_of].
    destruct (snd (submit_request login enroll CONFIG (subject_of c) c (altnames c)))
      as [[v|]|e]; [destruct (truthy v)| |discriminate].
    + destruct (write_pkey_error io c); [discriminate|].
      destruct (snd (submit_all login enroll io subject_of cs)) as [rq'|e] eqn:E;
        [|discriminate]. injection H as <-. cbn [filter is_write_key length post_of].
      rewrite (IH rq' eq_refl). reflexivity.
    + exact (IH rq H).
    + exact (IH rq H).
Qed.

(** The two summary lines of a batch: the number of certificates
    'specified' is the number of distinct host tuples, and the number
    'requested and retrieved successfully' is the number of key files
    written (one per ticket), whatever the retrievals gave. *)
Theorem main_summary_lines (login : string) (collect : jval -> nat -> attempt)
  (enroll : payload -> post_response) (certdir : string) (io : local_io) (subject_of : csr -> string)
  (set_order : list host -> list host)
  (Hset : forall hs, NoDup (set_order hs) /\ forall h, In h (set_order hs) <-> In h hs)
  (src : host_source) (n : nat) :
  let run := fst (main_run login collect enroll certdir io subject_of set_order src) in
  (In (ESpecified n) run -> n = length (nodup (list_eq_dec string_dec) (parse_hosts src)))
  /\ (In (ERetrievedOk n) run -> n = count_events is_write_key run).
Proof.
  intros run.
  set (hs := set_order (parse_hosts src)).
  destruct (Hset (parse_hosts src)) as [Hnd Hin].
  assert (Hne : forall h, In h hs -> h <> []).
  { intros h Hh. apply (parse_hosts_nonempty src). apply Hin. exact Hh. }
  set (cs := map (mk_csr certdir) hs).
  assert (Hlen : length cs = length (nodup (list_eq_dec string_dec) (parse_hosts src))).
  { unfold cs. rewrite length_map. apply Nat.le_antisymm; apply NoDup_incl_length.
    - exact Hnd.
    - intros h Hh. apply nodup_In, Hin, Hh.
    - apply NoDup_nodup.
    - intros h Hh. apply Hin, (nodup_In (list_eq_dec string_dec)), Hh. }
  destruct (main_run_fst login collect enroll certdir io subject_of set_order src)
    as (extra & Hrun & Hextra).
  assert (Hx : forall e, In e extra -> is_write_key e = false
                 /\ forall m, e <> ESpecified m /\ e <> ERetrievedOk m).
  { intros e He. destruct (Hextra e He) as [k ->]. split; [reflexivity|]. split; discriminate. }
  assert (HS : forall e, In e (fst (submit_all login enroll io subject_of cs)) ->
                 forall m, e <> ESpecified m /\ e <> ERetrievedOk m).
  { intros e He m. apply submit_all_events in He.
    destruct He as (c & _ & [->| ->]); split; discriminate. }
  assert (HN : forall e, In e (map ENewCsr cs) -> is_write_key e = false
                 /\ forall m, e <> ESpecified m /\ e <> ERetrievedOk m).
  { intros e He. apply in_map_iff in He. destruct He as (c & <- & _).
    split; [reflexivity|]. split; discriminate. }
  assert (HR : forall rq e, In e (fst (retrieve_all login collect certdir io rq)) ->
                 is_write_key e = false /\ forall m, e <> ESpecified m /\ e <> ERetrievedOk m).
  { intros rq e He. apply retrieve_all_events in He.
    destruct He as [He|[[p ->]|[p [b ->]]]];
      [destruct e; try discriminate|..]; (split; [reflexivity|split; discriminate]). }
  unfold run. rewrite Hrun, main_batch_fst. cbv zeta. fold hs.
  destruct (snd (build_csrs certdir io hs)) as [cs'|eb] eqn:EB.
  2:{ rewrite app_nil_r. split; intros H; apply in_app_or in H; destruct H as [H|H];
      first [apply build_csrs_events in H; destruct H as [c Hc]; discriminate
            |apply Hx in H; first [destruct (proj1 (proj2 H n) eq_refl)
                                  |destruct (proj2 (proj2 H n) eq_refl)]]. }
  destruct (proj2 (build_csrs_count certdir io hs (Csr "" "" []) Hne) cs' EB) as [Hcs' HF].
  rewrite HF. fold cs in Hcs'. subst cs'.
  destruct (snd (submit_all login enroll io subject_of cs)) as [rq|e] eqn:ES.
  - split; intros H; repeat rewrite in_app_iff in H.
    + destruct H as [[H|[H|[H|[H|H]]]]|H].
      * destruct (proj1 (proj2 (HN _ H) n) eq_refl).
      * destruct (proj1 (HS _ H n) eq_refl).
      * discriminate.
      * discriminate.
      * apply in_app_or in H. destruct H as [H|H]; [destruct (proj1 (proj2 (HR rq _ H) n) eq_refl)|].
        destruct (snd (retrieve_all login collect certdir io rq)); [|destruct H].
        destruct H as [H|[H|[]]]; [injection H as <-; exact Hlen|discriminate].
      * destruct (proj1 (proj2 (Hx _ H) n) eq_refl).
    + destruct H as [[H|[H|[H|[H|H]]]]|H].
      * destruct (proj2 (proj2 (HN _ H) n) eq_refl).
      * destruct (proj2 (HS _ H n) eq_refl).
      * discriminate.
      * discriminate.
      * apply in_app_or in H. destruct H as [H|H]; [destruct (proj2 (proj2 (HR rq _ H) n) eq_refl)|].
        destruct (snd (retrieve_all login collect certdir io rq)) eqn:ER; [|destruct H].
        destruct H as [H|[H|[]]]; [discriminate|injection H as <-].
        rewrite !count_events_app.
        rewrite (count_events_zero is_write_key (map ENewCsr cs))
          by (intros e He; exact (proj1 (HN e He))).
        rewrite (submit_all_key_count login enroll io subject_of cs rq ES).
        rewrite (count_events_zero is_write_key extra) by (intros e He; exact (proj1 (Hx e He))).
        change (EClose :: ESleep WAIT_APPROVAL :: ?l) with ([EClose; ESleep WAIT_APPROVAL] ++ l).
        rewrite !count_events_app.
        rewrite (count_events_zero is_write_key (fst (retrieve_all login collect certdir io rq)))
          by (intros e He; exact (proj1 (HR rq e He))).
        unfold count_events. cbn [filter is_write_key length]. lia.
      * destruct (proj2 (proj2 (Hx _ H) n) eq_refl).
  - rewrite app_nil_r. split; intros H; repeat rewrite in_app_iff in H;
      (destruct H as [[H|H]|H];
       [apply HN in H|apply (fun h => HS _ h n) in H|apply Hx in H]).
    all: first [destruct (proj1 (proj2 H n) eq_refl) | destruct (proj2 (proj2 H n) eq_refl)
               | destruct (proj1 H eq_refl) | destruct (proj2 H eq_refl)].
Qed.

Lemma main_summary_lines_witness :
  let run := fst (main_run ex_login ex_collect_by_id ex_enroll_ids ex_certdir ex_io ex_subject
                    ex_set_order ex_two_hosts) in
  (In (ESpecified 2) run -> 2 = length (nodup (list_eq_dec string_dec) (parse_hosts ex_two_hosts)))
  /\ (In (ERetrievedOk 2) run -> 2 = count_events is_write_key run).
Proof.
  apply (main_summary_lines ex_login ex_collect_by_id ex_enroll_ids ex_certdir ex_io ex_subject
           ex_set_order).
  intros hs. split; [apply NoDup_nodup|]. intros h. apply nodup_In.
Defined.

(** ** Further properties of host parsing *)

Lemma drop_spaces_head l c l' : drop_spaces l = c :: l' -> is_py_space c = false.
Proof.
  induction l as [|a l IH]; simpl; [discriminate|].
  destruct (is_py_space a) eqn:Ha; [exact IH|]. intros H. injection H as <- _. exact Ha.
Qed.

Lemma drop_spaces_nil l : drop_spaces l = [] -> forallb is_py_space l = true.
Proof.
  induction l as [|a l IH]; simpl; [reflexivity|].
  destruct (is_py_space a); [exact IH|discriminate].
Qed.

Lemma forallb_rev {A} (f : A -> bool) l : forallb f (rev l) = forallb f l.
Proof.
  induction l as [|a l IH]; [reflexivity|]. simpl. rewrite forallb_app, IH. simpl.
  rewrite andb_true_r, andb_comm. reflexivity.
Qed.

Lemma split_go_spaces s : forallb is_py_space (list_ascii_of_string s) = true -> split_go s [] = [].
Proof.
  induction s as [|c s IH]; simpl; [reflexivity|].
  destruct (is_py_space c); [exact IH|discriminate].
Qed.

Lemma py_strip_empty s : py_strip s = "" -> py_split s = [].
Proof.
  unfold py_strip, py_split. intros H.
  assert (H1 : rev (drop_spaces (rev (drop_spaces (list_ascii_of_string s)))) = []).
  { destruct (rev (drop_spaces (rev (drop_spaces (list_ascii_of_string s))))); [reflexivity|].
    discriminate. }
  apply (f_equal (@rev ascii)) in H1. rewrite rev_involutive in H1. cbn in H1.
  apply drop_spaces_nil in H1. rewrite forallb_rev in H1.
  destruct (drop_spaces (list_ascii_of_string s)) as [|c l] eqn:E.
  - apply split_go_spaces. apply drop_spaces_nil. exact E.
  - apply drop_spaces_head in E. simpl in H1. rewrite E in H1. discriminate.
Qed.

Lemma is_word_of_list l :
  l <> [] -> forallb (fun c => negb (is_py_space c)) l = true ->
  is_word (string_of_list_ascii l) = true.
Proof.
  intros Hne Hl. unfold is_word. rewrite list_ascii_of_string_of_list_ascii, Hl.
  destruct l; [contradiction|reflexivity].
Qed.

Lemma rev_cons_nonnil {A} (a : A) l : rev (a :: l) <> [].
Proof. intros H. apply (f_equal (@length A)) in H. rewrite length_rev in H. discriminate. Qed.

Lemma split_go_words s cur :
  forallb (fun c => negb (is_py_space c)) cur = true -> forallb is_word (split_go s cur) = true.
Proof.
  revert cur. induction s as [|c s IH]; intros cur Hc; cbn [split_go].
  - destruct cur as [|a cur]; [reflexivity|]. cbn [forallb]. rewrite andb_true_r.
    apply is_word_of_list; [apply rev_cons_nonnil|rewrite forallb_rev; exact Hc].
  - destruct (is_py_space c) eqn:Hs.
    + destruct cur as [|a cur]; [apply IH; reflexivity|]. cbn [forallb].
      rewrite is_word_of_list; [apply IH; reflexivity|apply rev_cons_nonnil|].
      rewrite forallb_rev. exact Hc.
    + apply IH. simpl. rewrite Hs. exact Hc.
Qed.

(** The tuples main reads from a host file: one per line that has a
    non-whitespace character, in the order of the lines, made of that
    line's words; each tuple is non-empty and each of its entries is a
    non-empty string without whitespace. *)
Theorem parse_hosts_file_tuples (host_lines : list string) :
  parse_hosts (FromFile host_lines) =
    filter (fun h => match h with [] => false | _ => true end) (map py_split host_lines)
  /\ forall h, In h (parse_hosts (FromFile host_lines)) -> h <> [] /\ forallb is_word h = true.
Proof.
  split.
  - simpl. induction host_lines as [|l ls IH]; [reflexivity|]. simpl.
    destruct (String.eqb (py_strip l) "") eqn:E.
    + apply String.eqb_eq, py_strip_empty in E. rewrite E. exact IH.
    + simpl. destruct (py_split l) eqn:Es.
      * apply py_split_nil in Es. rewrite Es in E. discriminate.
      * rewrite IH. reflexivity.
  - intros h Hh. split; [exact (parse_hosts_nonempty _ h Hh)|].
    simpl in Hh. apply in_map_iff in Hh. destruct Hh as (l & <- & _).
    apply split_go_words. reflexivity.
Qed.

Lemma is_blank_cons c s : is_blank (String c s) = is_py_space c && is_blank s.
Proof. reflexivity. Qed.

Lemma is_word_cons c w :
  is_word (String c w) =
  negb (is_py_space c) && forallb (fun c => negb (is_py_space c)) (list_ascii_of_string w).
Proof. reflexivity. Qed.

Lemma is_word_chars w :
  is_word w = true -> forallb (fun c => negb (is_py_space c)) (list_ascii_of_string w) = true.
Proof. unfold is_word. intros H. apply andb_prop in H. tauto. Qed.

Lemma split_go_blank b s : is_blank b = true -> split_go (String.append b s) [] = split_go s [].
Proof.
  induction b as [|c b IH]; intros H; [reflexivity|].
  rewrite is_blank_cons in H. cbn [String.append split_go].
  destruct (is_py_space c); [exact (IH H)|discriminate].
Qed.

Lemma split_go_blank_end t cur :
  is_blank t = true -> cur <> [] -> split_go t cur = [string_of_list_ascii (rev cur)].
Proof.
  intros Ht Hc. destruct cur as [|a cur]; [contradiction|].
  destruct t as [|c t]; [reflexivity|].
  rewrite is_blank_cons in Ht. cbn [split_go].
  destruct (is_py_space c); [|discriminate]. rewrite split_go_spaces by exact Ht. reflexivity.
Qed.

Lemma split_go_words_tail rest trail cur :
  forallb (fun p => negb (String.eqb (fst p) "") && is_blank (fst p) && is_word (snd p)) rest
    = true ->
  is_blank trail = true -> cur <> [] ->
  split_go (words_tail rest trail) cur = string_of_list_ascii (rev cur) :: map snd rest.
Proof.
  revert cur. induction rest as [|[sep w] rest IH]; intros cur Hr Ht Hc.
  - apply split_go_blank_end; assumption.
  - cbn [forallb fst snd] in Hr.
    apply andb_prop in Hr as [Hr Hrest]. apply andb_prop in Hr as [Hr Hw].
    apply andb_prop in Hr as [Hsep Hb].
    destruct sep as [|c sep]; [discriminate|]. rewrite is_blank_cons in Hb.
    destruct (is_py_space c) eqn:Hcs; [|discriminate].
    destruct cur as [|a cur]; [contradiction|].
    cbn [words_tail String.append split_go]. rewrite Hcs. cbn [map]. f_equal.
    rewrite split_go_blank by exact Hb.
    rewrite split_go_word by (apply is_word_chars; exact Hw).
    rewrite app_nil_r, IH by first [assumption | apply word_rev_nonempty; assumption].
    rewrite string_of_rev_rev. reflexivity.
Qed.

Lemma py_split_host_line lead cn rest trail :
  host_line_ok lead cn rest trail = true ->
  py_split (host_line lead cn rest trail) = cn :: map snd rest.
Proof.
  unfold host_line_ok, py_split, host_line. intros H.
  apply andb_prop in H as [H Ht]. apply andb_prop in H as [H Hr].
  apply andb_prop in H as [Hl Hc].
  rewrite split_go_blank by exact Hl.
  rewrite split_go_word by (apply is_word_chars; exact Hc).
  rewrite app_nil_r, split_go_words_tail by first [assumption | apply word_rev_nonempty; assumption].
  rewrite string_of_rev_rev. reflexivity.
Qed.

Lemma host_line_cover s :
  is_blank s = true \/
  exists lead cn rest trail, host_line_ok lead cn rest trail = true
                             /\ s = host_line lead cn rest trail.
Proof.
  induction s as [|c s IH]; [left; reflexivity|].
  destruct (is_py_space c) eqn:Hc.
  - destruct IH as [Hb|(lead & cn & rest & trail & Hok & ->)].
    + left. rewrite is_blank_cons, Hc. exact Hb.
    + right. exists (String c lead), cn, rest, trail. split; [|reflexivity].
      unfold host_line_ok in *. rewrite is_blank_cons, Hc. exact Hok.
  - right. destruct IH as [Hb|(lead & cn & rest & trail & Hok & ->)].
    + exists "", (String c ""), [], s. split; [|reflexivity].
      unfold host_line_ok. rewrite Hb, is_word_cons, Hc. reflexivity.
    + unfold host_line_ok in Hok.
      apply andb_prop in Hok as [Hok Ht]. apply andb_prop in Hok as [Hok Hr].
      apply andb_prop in Hok as [Hl Hw].
      destruct lead as [|l0 lead].
      * exists "", (String c cn), rest, trail. split; [|reflexivity].
        unfold host_line_ok. rewrite Hr, Ht, is_word_cons, Hc, (is_word_chars cn Hw).
        reflexivity.
      * exists "", (String c ""), ((String l0 lead, cn) :: rest), trail. split; [|reflexivity].
        unfold host_line_ok. cbn [forallb fst snd].
        rewrite Hl, Hw, Hr, Ht, is_word_cons, Hc. reflexivity.
Qed.

Lemma py_strip_blank s : is_blank s = true -> py_strip s = "".
Proof. intros Hb. unfold py_strip. rewrite (drop_spaces_all _ Hb). reflexivity. Qed.

(** C6 (amended).  The alt-names of a tuple are the names given, in order,
    duplicates included.  For [-H hostname] they are the [-a] values.  Every
    host-file line with a non-whitespace character is a [host_line lead cn
    rest trail]: whitespace around it (the final ['\n'] included), words
    separated by runs of spaces or tabs; wherever it stands in the file, it
    gives the tuple [cn :: map snd rest], whose alt-names are all the words
    after the first. *)
Theorem parse_hosts_alt_names_as_given (hostname : string) (alt_names : list string)
  (pre post : list string) (lead cn : string) (rest : list (string * string)) (trail : string)
  (Hok : host_line_ok lead cn rest trail = true) :
  parse_hosts (FromHostname hostname alt_names) = [py_strip hostname :: alt_names]
  /\ map host_sans (parse_hosts (FromHostname hostname alt_names)) = [alt_names]
  /\ parse_hosts (FromFile (pre ++ host_line lead cn rest trail :: post)) =
       parse_hosts (FromFile pre) ++ (cn :: map snd rest) :: parse_hosts (FromFile post)
  /\ host_sans (cn :: map snd rest) = map snd rest
  /\ (forall line, py_strip line <> "" ->
        exists lead' cn' rest' trail', host_line_ok lead' cn' rest' trail' = true
                                       /\ line = host_line lead' cn' rest' trail').
Proof.
  split; [reflexivity|]. split; [reflexivity|]. split; [|split; [reflexivity|]].
  - pose proof (py_split_host_line lead cn rest trail Hok) as Hs.
    cbn [parse_hosts]. rewrite filter_app, map_app. cbn [filter].
    destruct (String.eqb (py_strip (host_line lead cn rest trail)) "") eqn:E.
    + apply String.eqb_eq, py_strip_empty in E. rewrite Hs in E. discriminate.
    + cbn [negb map]. rewrite Hs. reflexivity.
  - intros line Hl. destruct (host_line_cover line) as [Hb|H]; [|exact H].
    exfalso. exact (Hl (py_strip_blank line Hb)).
Qed.

Lemma parse_hosts_alt_names_as_given_witness :
  host_line_ok " " "a.example.org"
    [(String "009"%char " ", "b.example.org"); ("  ", "b.example.org")] (String "010"%char "")
    = true
  /\ parse_hosts (FromFile (["c.example.org"] ++
                            host_line " " "a.example.org"
                              [(String "009"%char " ", "b.example.org"); ("  ", "b.example.org")]
                              (String "010"%char "") :: [String "010"%char ""])) =
     parse_hosts (FromFile ["c.example.org"])
       ++ ["a.example.org"; "b.example.org"; "b.example.org"]
       :: parse_hosts (FromFile [String "010"%char ""]).
Proof.
  split; [reflexivity|].
  exact (proj1 (proj2 (proj2 (parse_hosts_alt_names_as_given " a.example.org " []
           ["c.example.org"] [String "010"%char ""] " " "a.example.org"
           [(String "009"%char " ", "b.example.org"); ("  ", "b.example.org")]
           (String "010"%char "") eq_refl)))).
Defined.

(** ** Certificate writes *)

Lemma guarded_nowrite t :
  (forall e, In e t -> is_write_cert e = false) ->
  renamed_before_write t /\ forall p b post, t <> EWriteCert p b :: post.
Proof.
  intros H. split.
  - intros pre path body post E. exfalso.
    assert (Hin : In (EWriteCert path body) t) by (rewrite E; apply in_or_app; right; left; reflexivity).
    specialize (H _ Hin). discriminate.
  - intros p b post E. subst t. specialize (H _ (or_introl eq_refl)). discriminate.
Qed.

Lemma guarded_app t1 t2 :
  renamed_before_write t1 /\ (forall p b post, t1 <> EWriteCert p b :: post) ->
  renamed_before_write t2 /\ (forall p b post, t2 <> EWriteCert p b :: post) ->
  renamed_before_write (t1 ++ t2) /\ forall p b post, t1 ++ t2 <> EWriteCert p b :: post.
Proof.
  intros [P1 H1] [P2 H2]. split.
  - intros pre path body post E.
    apply app_eq_app in E. destruct E as (l & [[E1 E2]|[E1 E2]]).
    + (* the write is in [t1], or heads [t2] *)
      destruct l as [|x l].
      * exfalso. exact (H2 path body post (eq_sym E2)).
      * injection E2 as <- E2. exact (P1 pre path body l E1).
    + (* the write is in [t2] *)
      destruct (P2 l path body post E2) as [pre' E3].
      exists (t1 ++ pre'). rewrite E1, E3, app_assoc. reflexivity.
  - intros p b post E. destruct t1 as [|x t1].
    + exact (H2 p b post E).
    + injection E as -> E. exact (H1 p b t1 eq_refl).
Qed.

Lemma guarded_rename_write p b t :
  renamed_before_write t /\ (forall p' b' post, t <> EWriteCert p' b' :: post) ->
  renamed_before_write (ESafeRename p :: EWriteCert p b :: t)
  /\ forall p' b' post, ESafeRename p :: EWriteCert p b :: t <> EWriteCert p' b' :: post.
Proof.
  intros Ht. change (ESafeRename p :: EWriteCert p b :: t)
    with ([ESafeRename p; EWriteCert p b] ++ t).
  apply guarded_app; [|exact Ht]. split; [|intros p' b' post E; discriminate].
  intros pre path body post E.
  destruct pre as [|x [|y pre]]; simpl in E; [discriminate| |].
  - injection E as Ex Ep Eb Epost. subst. exists []. reflexivity.
  - injection E as _ _ E. destruct pre; discriminate.
Qed.

Lemma retrieve_all_guarded login collect certdir io rq :
  renamed_before_write (fst (retrieve_all login collect certdir io rq))
  /\ forall p b post, fst (retrieve_all login collect certdir io rq) <> EWriteCert p b :: post.
Proof.
  induction rq as [|[sslId subj] rq IH].
  - apply guarded_nowrite. intros e [].
  - rewrite retrieve_all_cons_fst. apply guarded_app.
    + apply guarded_nowrite. intros e He. apply retrieve_loop_events in He.
      destruct e; try discriminate; reflexivity.
    + destruct (snd (retrieve_cert login collect CONFIG sslId)) as [[body|]|e].
      * destruct (snd (cert_path certdir subj)) as [path|e].
        -- destruct (safe_rename_error io path);
             [apply guarded_nowrite; intros e' [<-|[]]; reflexivity|].
           apply guarded_rename_write.
           destruct (atomic_write_error io path body); [|exact IH].
           apply guarded_nowrite. intros e' [].
        -- apply guarded_nowrite. intros e' [].
      * exact IH.
      * apply guarded_nowrite. intros e' [].
Qed.

(** Whenever main writes a certificate file it has just called
    [safe_rename] on the same path: an existing file is always moved aside
    first. *)
Theorem main_rename_before_write (login : string) (collect : jval -> nat -> attempt)
  (enroll : payload -> post_response) (certdir : string) (io : local_io) (subject_of : csr -> string)
  (set_order : list host -> list host) (src : host_source) :
  renamed_before_write (fst (main_run login collect enroll certdir io subject_of set_order src)).
Proof.
  destruct (main_run_fst login collect enroll certdir io subject_of set_order src)
    as (extra & -> & Hextra).
  apply guarded_app.
  - rewrite main_batch_fst. cbv zeta. apply guarded_app.
    + apply guarded_nowrite. intros e He.
      destruct (build_csrs_events _ _ _ _ He) as [c ->]. reflexivity.
    + destruct (snd (build_csrs certdir io (set_order (parse_hosts src)))) as [cs|e];
        [|apply guarded_nowrite; intros e' []].
      apply guarded_app.
      * apply guarded_nowrite. intros e He. apply submit_all_events in He.
        destruct He as (c & _ & [->| ->]); reflexivity.
      * destruct (snd (submit_all login enroll io subject_of cs)) as [rq|e];
          [|apply guarded_nowrite; intros e' []].
        change (EClose :: ESleep WAIT_APPROVAL :: ?l) with ([EClose; ESleep WAIT_APPROVAL] ++ l).
        apply guarded_app; [apply guarded_nowrite; intros x [<-|[<-|[]]]; reflexivity|].
        apply guarded_app; [apply retrieve_all_guarded|].
        destruct (snd (retrieve_all login collect certdir io rq));
          apply guarded_nowrite; intros x He; [destruct He as [<-|[<-|[]]]|destruct He];
          reflexivity.
  - apply guarded_nowrite. intros e He. destruct (Hextra e He) as [k ->]. reflexivity.
Qed.

(** ** Further properties of parse_args and main *)

(** What parse_args records about the hosts: in test mode neither a
    hostname nor a host file; otherwise a truthy [-H] is recorded and [-f]
    is dropped, and without one the host file is recorded, and it exists. *)
Theorem parse_args_host_keys (os_path_exists : string -> bool)
  (verify_user_cred : string -> string -> main_exn + (string * string))
  (o : options) (a : arguments)
  (Hok : parse_args os_path_exists verify_user_cred o = inr a) :
  (opt_test o = true -> arg_hostname a = None /\ arg_hostfile a = None)
  /\ (opt_test o = false -> truthy_str (opt_hostname o) = true ->
      arg_hostname a = opt_hostname o /\ arg_hostfile a = None)
  /\ (opt_test o = false -> truthy_str (opt_hostname o) = false ->
      arg_hostname a = None
      /\ exists f, opt_hostfile o = Some f /\ arg_hostfile a = Some f /\ os_path_exists f = true).
Proof.
  unfold parse_args in Hok.
  destruct (truthy_str (opt_login o)); [|discriminate]. cbn [negb] in Hok.
  destruct (opt_test o) eqn:Ht.
  - split; [|split; intros; discriminate]. intros _.
    destruct (_ || _); [discriminate|].
    destruct (verify_user_cred _ _) as [e|[uc uk]]; [discriminate|].
    injection Hok as <-. split; reflexivity.
  - split; [intros; discriminate|].
    destruct (truthy_str (opt_hostname o)) eqn:Hh; cbn [negb] in Hok.
    + split; [intros _ _|intros _ H; discriminate].
      destruct (_ || _); [discriminate|].
      destruct (verify_user_cred _ _) as [e|[uc uk]]; [discriminate|].
      injection Hok as <-. split; reflexivity.
    + split; [intros _ H; discriminate|intros _ _].
      destruct (opt_hostfile o) as [f|]; [|discriminate]. cbn iota in Hok.
      destruct (os_path_exists f) eqn:Hf; [|discriminate].
      destruct (_ || _); [discriminate|].
      destruct (verify_user_cred _ _) as [e|[uc uk]]; [discriminate|].
      injection Hok as <-. split; [reflexivity|]. exists f. auto.
Qed.

Lemma parse_args_host_keys_witness :
  let o := {| opt_hostname := None; opt_hostfile := Some "hosts.txt";
              opt_write_directory := "."; opt_userprivkey := Some "userkey.pem";
              opt_usercert := Some "usercert.pem"; opt_alt_names := [];
              opt_login := Some "operator"; opt_test := false |} in
  let a := {| arg_hostname := None; arg_hostfile := Some "hosts.txt"; arg_alt_names := [];
              arg_test := false; arg_login := "operator"; arg_usercert := "usercert.pem";
              arg_userprivkey := "userkey.pem"; arg_certdir := "." |} in
  (opt_test o = true -> arg_hostname a = None /\ arg_hostfile a = None)
  /\ (opt_test o = false -> truthy_str (opt_hostname o) = true ->
      arg_hostname a = opt_hostname o /\ arg_hostfile a = None)
  /\ (opt_test o = false -> truthy_str (opt_hostname o) = false ->
      arg_hostname a = None
      /\ exists f, opt_hostfile o = Some f /\ arg_hostfile a = Some f
                   /\ (fun _ : string => true) f = true).
Proof.
  intros o a.
  apply (parse_args_host_keys (fun _ => true) (fun c k => inr (c, k)) o a).
  reflexivity.
Defined.

(** The order of parse_args's checks: a falsy login fails first; then,
    outside test mode, a missing host option, then a host file that does
    not exist; then missing credentials, in test mode as well; each before
    the credentials are verified. *)
Theorem parse_args_errors (os_path_exists : string -> bool)
  (verify_user_cred : string -> string -> main_exn + (string * string)) (o : options) :
  let r := parse_args os_path_exists verify_user_cred o in
  (truthy_str (opt_login o) = false -> r = inl (InsufficientArgumentException MissingLogin))
  /\ (truthy_str (opt_login o) = true -> opt_test o = false ->
      truthy_str (opt_hostname o) = false -> opt_hostfile o = None ->
      r = inl (InsufficientArgumentException MissingHost))
  /\ (forall f, truthy_str (opt_login o) = true -> opt_test o = false ->
      truthy_str (opt_hostname o) = false -> opt_hostfile o = Some f ->
      os_path_exists f = false -> r = inl (FileNotFoundException f))
  /\ (truthy_str (opt_login o) = true ->
      (opt_test o = true \/ truthy_str (opt_hostname o) = true
       \/ exists f, opt_hostfile o = Some f /\ os_path_exists f = true) ->
      (truthy_str (opt_usercert o) = false \/ truthy_str (opt_userprivkey o) = false) ->
      r = inl (InsufficientArgumentException MissingCredentials)).
Proof.
  intros r. unfold r, parse_args. split; [intros ->; reflexivity|].
  split; [intros -> -> -> ->; reflexivity|].
  split; [intros f -> -> -> Hf He; rewrite Hf; simpl; rewrite He; reflexivity|].
  intros -> Hh Hc. cbn [negb].
  assert (Hc' : negb (truthy_str (opt_usercert o)) || negb (truthy_str (opt_userprivkey o))
                = true) by (destruct Hc as [-> | ->]; [reflexivity|apply orb_true_r]).
  destruct (opt_test o) eqn:Ht; [rewrite Hc'; reflexivity|].
  destruct (truthy_str (opt_hostname o)) eqn:Hn; cbn [negb]; [rewrite Hc'; reflexivity|].
  destruct Hh as [H|[H|(f & Hf & He)]]; [discriminate|discriminate|].
  rewrite Hf. simpl. rewrite He. simpl. rewrite Hc'. reflexivity.
Qed.

Lemma parse_args_errors_witness :
  let o := {| opt_hostname := Some ""; opt_hostfile := Some "missing.txt";
              opt_write_directory := "."; opt_userprivkey := None;
              opt_usercert := None; opt_alt_names := [];
              opt_login := Some "operator"; opt_test := false |} in
  let r := parse_args (fun _ => false) (fun c k => inr (c, k)) o in
  (truthy_str (opt_login o) = false -> r = inl (InsufficientArgumentException MissingLogin))
  /\ (truthy_str (opt_login o) = true -> opt_test o = false ->
      truthy_str (opt_hostname o) = false -> opt_hostfile o = None ->
      r = inl (InsufficientArgumentException MissingHost))
  /\ (forall f, truthy_str (opt_login o) = true -> opt_test o = false ->
      truthy_str (opt_hostname o) = false -> opt_hostfile o = Some f ->
      (fun _ : string => false) f = false -> r = inl (FileNotFoundException f))
  /\ (truthy_str (opt_login o) = true ->
      (opt_test o = true \/ truthy_str (opt_hostname o) = true
       \/ exists f, opt_hostfile o = Some f /\ (fun _ : string => false) f = true) ->
      (truthy_str (opt_usercert o) = false \/ truthy_str (opt_userprivkey o) = false) ->
      r = inl (InsufficientArgumentException MissingCredentials)).
Proof. intros o r. exact (parse_args_errors (fun _ => false) (fun c k => inr (c, k)) o). Defined.

Lemma parse_args_fields (os_path_exists : string -> bool)
  (verify_user_cred : string -> string -> main_exn + (string * string))
  (o : options) (a : arguments) :
  parse_args os_path_exists verify_user_cred o = inr a ->
  arg_test a = opt_test o /\ arg_alt_names a = opt_alt_names o.
Proof.
  unfold parse_args.
  destruct (negb _); [discriminate|].
  destruct (if opt_test o then _ else _) as [e|[hn hf]]; [discriminate|].
  destruct (if opt_test o then _ else _) as [e|]; [discriminate|].
  destruct (_ || _); [discriminate|].
  destruct (verify_user_cred _ _) as [e|[uc uk]]; [discriminate|].
  intros E. injection E as <-. split; reflexivity.
Qed.

(** parse_args only looks at the file system for a host file: in test mode
    or with a truthy [-H] its result does not depend on [os.path.exists]. *)
Theorem parse_args_no_path_check (path_exists1 path_exists2 : string -> bool)
  (verify_user_cred : string -> string -> main_exn + (string * string)) (o : options)
  (H : opt_test o = true \/ truthy_str (opt_hostname o) = true) :
  parse_args path_exists1 verify_user_cred o = parse_args path_exists2 verify_user_cred o.
Proof.
  unfold parse_args.
  destruct H as [-> | Hh]; [reflexivity|].
  destruct (opt_test o); [reflexivity|]. rewrite Hh. reflexivity.
Qed.

Lemma parse_args_no_path_check_witness :
  let o := {| opt_hostname := Some "a.example.org"; opt_hostfile := Some "hosts.txt";
              opt_write_directory := "."; opt_userprivkey := Some "userkey.pem";
              opt_usercert := Some "usercert.pem"; opt_alt_names := [];
              opt_login := Some "operator"; opt_test := false |} in
  (opt_test o = true \/ truthy_str (opt_hostname o) = true)
  /\ parse_args (fun _ => true) (fun c k => inr (c, k)) o
     = parse_args (fun _ => false) (fun c k => inr (c, k)) o.
Proof.
  intros o. split; [right; reflexivity|].
  apply (parse_args_no_path_check (fun _ => true) (fun _ => false) (fun c k => inr (c, k)) o).
  right; reflexivity.
Defined.

(** Test mode: once the arguments, the permissions and the SSL context are
    accepted, main opens the connection, GETs the listing url and reports
    its status, then closes the connection and exits 0 whatever the status;
    it never posts a request nor writes a file.  An exception of the GET
    exits 1 without closing the connection. *)
Theorem main_test_mode os_path_exists verify_user_cred check_permissions get_ssl_context
  read_lines listing collect enroll io subject_of set_order (o : options) (args : arguments)
  (Hp : parse_args os_path_exists verify_user_cred o = inr args)
  (Ht : opt_test o = true)
  (Hc : check_permissions (arg_certdir args) = None)
  (Hs : get_ssl_context (arg_usercert args) (arg_userprivkey args) = None) :
  let h := build_headers (arg_login args) CONFIG in
  main os_path_exists verify_user_cred check_permissions get_ssl_context read_lines listing
       collect enroll io subject_of set_order o
  = match listing with
    | AResp st _ => ([MEv EConnect; MListing h; MConnectionReport st (Z.eqb st 200); MEv EClose], 0)
    | ARaise e => ([MEv EConnect; MListing h; MHandled (PyExc e)], 1)
    end.
Proof.
  intros h. unfold main. rewrite Hp, Hc, Hs.
  destruct (parse_args_fields _ _ _ _ Hp) as [Ha _]. rewrite Ha, Ht.
  unfold test_incommon_connection. destruct listing; reflexivity.
Qed.

Lemma main_test_mode_witness :
  main (fun _ => false) (fun c k => inr (c, k)) (fun _ => None) (fun _ _ => None)
       (fun _ => inr []) (AResp 401 "Unauthorized") ex_collect_404 ex_enroll_refused ex_io
       ex_subject ex_set_order ex_test_options
  = ([MEv EConnect; MListing (build_headers "operator" CONFIG);
      MConnectionReport 401 false; MEv EClose], 0).
Proof.
  exact (main_test_mode (fun _ => false) (fun c k => inr (c, k)) (fun _ => None) (fun _ _ => None)
           (fun _ => inr []) (AResp 401 "Unauthorized") ex_collect_404 ex_enroll_refused ex_io
           ex_subject ex_set_order ex_test_options
           {| arg_hostname := None; arg_hostfile := None; arg_alt_names := [];
              arg_test := true; arg_login := "operator"; arg_usercert := "usercert.pem";
              arg_userprivkey := "userkey.pem"; arg_certdir := "." |}
           eq_refl eq_refl eq_refl eq_refl).
Defined.

(** [-H] takes precedence: outside test mode, with a truthy [-H] and the
    prelude accepted, main runs the batch on the single host tuple of [-H]
    and [-a]; the host file is never opened nor checked. *)
Theorem main_hostname_precedence os_path_exists verify_user_cred check_permissions
  get_ssl_context read_lines listing collect enroll io subject_of set_order
  (o : options) (args : arguments) (h : string)
  (Hp : parse_args os_path_exists verify_user_cred o = inr args)
  (Ht : opt_test o = false)
  (Hh : opt_hostname o = Some h) (Hne : h <> "")
  (Hc : check_permissions (arg_certdir args) = None)
  (Hs : get_ssl_context (arg_usercert args) (arg_userprivkey args) = None) :
  main os_path_exists verify_user_cred check_permissions get_ssl_context read_lines listing
       collect enroll io subject_of set_order o
  = let '(t, code) := main_run (arg_login args) collect enroll (arg_certdir args) io subject_of
                               set_order (FromHostname h (opt_alt_names o)) in
    (MEv EConnect :: map MEv t, code).
Proof.
  assert (Htr : truthy_str (opt_hostname o) = true)
    by (rewrite Hh; cbn; destruct (String.eqb_spec h ""); [contradiction|reflexivity]).
  destruct (parse_args_host_keys _ _ _ _ Hp) as (_ & Hk & _).
  destruct (Hk Ht Htr) as [Hn _].
  destruct (parse_args_fields _ _ _ _ Hp) as [Ha Halt].
  unfold main. rewrite Hp, Hc, Hs, Ha, Ht, Hn, Hh, Halt. reflexivity.
Qed.

Lemma main_hostname_precedence_witness :
  main (fun _ => false) (fun c k => inr (c, k)) (fun _ => None) (fun _ _ => None)
       (fun _ => inl (PyExc (KeyError "unread"))) (AResp 200 "") ex_collect_404 ex_enroll_refused ex_io
       ex_subject ex_set_order ex_hostname_options
  = let '(t, code) := main_run "operator" ex_collect_404 ex_enroll_refused "certs" ex_io ex_subject
                               ex_set_order (FromHostname "a.example.org" ["www.example.org"]) in
    (MEv EConnect :: map MEv t, code).
Proof.
  exact (main_hostname_precedence (fun _ => false) (fun c k => inr (c, k)) (fun _ => None)
           (fun _ _ => None) (fun _ => inl (PyExc (KeyError "unread"))) (AResp 200 "")
           ex_collect_404 ex_enroll_refused ex_io ex_subject ex_set_order ex_hostname_options
           {| arg_hostname := Some "a.example.org"; arg_hostfile := None;
              arg_alt_names := ["www.example.org"]; arg_test := false; arg_login := "operator";
              arg_usercert := "usercert.pem"; arg_userprivkey := "userkey.pem";
              arg_certdir := "certs" |}
           "a.example.org" eq_refl eq_refl eq_refl ltac:(discriminate) eq_refl eq_refl).
Defined.
